(** * A user-management HTTP API over a document store and an upload directory

    Shallow embedding of [backend/index.js]: the filename sanitizer, the
    Multer upload stage, the Mongoose [User] model calls and the seven
    Express routes, followed by the properties of the routes.

    The libraries the program calls are modelled by what they do to the two
    pieces of state the program has: the [users] collection and the file
    system.  Text is modelled by [string], one character per code unit. *)

From stdpp Require Import gmap strings list fin_maps.
From Stdlib Require Import Ascii String NArith Lia.
From Stdlib Require Import DecimalString DecimalN DecimalPos.

Local Open Scope string_scope.
Local Open Scope list_scope.
Local Open Scope N_scope.

(** ** Text helpers *)

Definition quoteChar : ascii := Ascii.ascii_of_nat 34.
Definition slashChar : ascii := "/"%char.

Definition isSlash (c : ascii) : bool := Ascii.eqb c slashChar.

Fixpoint chars (s : string) : list ascii :=
  match s with
  | EmptyString => []
  | String c r => c :: chars r
  end.

Fixpoint unchars (l : list ascii) : string :=
  match l with
  | [] => EmptyString
  | c :: r => String c (unchars r)
  end.

Fixpoint dropWhile {A} (p : A → bool) (l : list A) : list A :=
  match l with
  | [] => []
  | x :: r => if p x then dropWhile p r else l
  end.

Fixpoint takeWhile {A} (p : A → bool) (l : list A) : list A :=
  match l with
  | [] => []
  | x :: r => if p x then x :: takeWhile p r else []
  end.

(** [Date.now() + '-'] renders the millisecond count in decimal. *)
Definition decimal (n : N) : string := NilZero.string_of_uint (N.to_uint n).

(** ** The filename sanitizer (index.js, lines 39-41) *)

(** The nine characters of the class in the regular expression of line 40:
    less-than, greater-than, colon, double quote, slash, backslash, bar,
    question mark and star. *)
Definition invalidChars : list ascii :=
  ["<"; ">"; ":"; quoteChar; "/"; "\"; "|"; "?"; "*"]%char.

Definition invalidChar (c : ascii) : bool :=
  existsb (Ascii.eqb c) invalidChars.

(** [filename.replace(class, '_')] with the global flag: replacing every
    match of a one-character class by one character rewrites each
    character on its own, in place. *)
Fixpoint sanitizeFilename (filename : string) : string :=
  match filename with
  | EmptyString => EmptyString
  | String c rest =>
      String (if invalidChar c then "_"%char else c) (sanitizeFilename rest)
  end.

(** ** Paths (Node's POSIX [path] module) *)

(** An absolute path is the list of its segments below the root. *)
Abbreviation path := (list string).

(** [path.basename(p)]: scanning from the end, trailing slashes are skipped
    and the characters up to the previous slash are kept. *)
Definition basename (p : string) : string :=
  let fromEnd := dropWhile isSlash (rev (chars p)) in
  unchars (rev (takeWhile (λ c, negb (isSlash c)) fromEnd)).

(** Segments of an argument of [path.join], split at every slash. *)
Fixpoint splitSlash (s : string) : list string :=
  match s with
  | EmptyString => [EmptyString]
  | String c r =>
      if isSlash c then EmptyString :: splitSlash r
      else match splitSlash r with
           | [] => [String c EmptyString]
           | h :: t => String c h :: t
           end
  end.

(** One step of [path.normalize] on an absolute path; the segments read so
    far are kept innermost first. *)
Definition normStep (stack : list string) (seg : string) : list string :=
  if String.eqb seg "" then stack
  else if String.eqb seg "." then stack
  else if String.eqb seg ".." then tail stack
  else seg :: stack.

Definition normalizeSegs (segs : list string) : path :=
  rev (fold_left normStep segs []).

(** [path.join(base, ...parts)] for an absolute [base]: the arguments are
    joined with slashes and the result is normalized. *)
Definition path_join (base : path) (parts : list string) : path :=
  normalizeSegs (base ++ flat_map splitSlash parts).

Definition parentOf (p : path) : path := removelast p.

(** ** Values, documents, state *)

(** The values a document field or a request field can hold here. *)
Inductive jsval :=
| JUndefined
| JNull
| JString (s : string).

Definition truthy (v : jsval) : bool :=
  match v with
  | JString s => negb (String.eqb s "")
  | _ => false
  end.

Definition ofField (f : option string) : jsval :=
  match f with
  | Some s => JString s
  | None => JUndefined
  end.

(** A 12-byte ObjectId, as the number its 24 hex digits denote. *)
Abbreviation ObjectId := N.

(** [userSchema] (lines 29-34). *)
Record UserDoc := mkUser {
  _id : ObjectId;
  username : jsval;
  email : jsval;
  password : jsval;
  image : jsval
}.

Inductive node :=
| Dir
| File (content : string).

Record World := mkWorld {
  db : gmap ObjectId UserDoc;
  fs : gmap path node
}.

Inductive Error :=
| CastError (value : string)
| ValidationError (paths : list string)
| DuplicateKey (id : ObjectId)
| FilterError (message : string)
| FsError (code : string) (p : path).

Inductive Message :=
| Literal (s : string)
| MessageOf (e : Error).

Inductive Body :=
| Text (s : string)
| JsonUser (u : UserDoc)
| JsonUsers (us : list UserDoc)
| JsonError (error : Message)
| JsonErrorDetails (error : Message) (details : Message)
| JsonMessage (message : string)
| SentFile (p : path) (content : string)
| ErrorPage (e : Error).

Record Response := mkResponse {
  status : N;
  body : Body
}.

(** A file part of a multipart request, and what Multer records of a stored
    file in [req.file]. *)
Record FilePart := mkFilePart {
  originalname : string;
  mimetype : string;
  bytes : string
}.

Record MulterFile := mkMulterFile {
  filename : string
}.

(** A request: the [:id] route parameter, the text fields of the
    form-encoded body, each absent or a string, and the optional file part
    named [image]. *)
Record Request := mkRequest {
  params_id : string;
  body_username : option string;
  body_email : option string;
  body_password : option string;
  part_image : option FilePart
}.

(** ** Computations that read and write the world and may throw *)

Inductive Result (A : Type) :=
| Ok (a : A)
| Throw (e : Error).
Arguments Ok {A} a.
Arguments Throw {A} e.

Definition M (A : Type) : Type := World → Result A * World.

Definition ret {A} (a : A) : M A := λ w, (Ok a, w).
Definition throw {A} (e : Error) : M A := λ w, (Throw e, w).

Definition bind {A B} (m : M A) (k : A → M B) : M B :=
  λ w, match m w with
       | (Ok a, w') => k a w'
       | (Throw e, w') => (Throw e, w')
       end.

(** [try { body } catch (err) { handler }]. *)
Definition try_catch {A} (m : M A) (handler : Error → M A) : M A :=
  λ w, match m w with
       | (Ok a, w') => (Ok a, w')
       | (Throw e, w') => handler e w'
       end.

Definition getWorld : M World := λ w, (Ok w, w).
Definition putDb (d : gmap ObjectId UserDoc) : M unit :=
  λ w, (Ok tt, mkWorld d (fs w)).
Definition putFs (f : gmap path node) : M unit :=
  λ w, (Ok tt, mkWorld (db w) f).

#[export] Instance M_ret : MRet M := @ret.
#[export] Instance M_bind : MBind M := λ A B k m, bind m k.

(** ** The file system calls (Node's [fs], Multer's disk write, [send]) *)

Module Fs.

Definition existsSync (p : path) (f : gmap path node) : bool :=
  bool_decide (is_Some (f !! p)).

(** [fs.mkdirSync(p, { recursive: true })]: every directory on the way to
    [p] is created when missing; a regular file on the way is an error. *)
Fixpoint mkdirp (pre : path) (rest : list string) (f : gmap path node)
  : Result (gmap path node) :=
  match f !! pre with
  | Some (File _) => Throw (FsError "ENOTDIR" pre)
  | _ =>
      let f' := <[pre := Dir]> f in
      match rest with
      | [] => Ok f'
      | seg :: rest' => mkdirp (pre ++ [seg]) rest' f'
      end
  end.

Definition mkdirSync_recursive (p : path) (f : gmap path node)
  : Result (gmap path node) :=
  mkdirp [] p f.

(** Opening a write stream on [p] and piping [content] into it: the
    parent must be a directory and [p] must not be one; an existing file
    is replaced.  (A refusal that depends on the name alone, such as a
    name longer than the file system allows, is not modelled.) *)
Definition writeFile (p : path) (content : string) : M unit :=
  w ← getWorld;
  match fs w !! parentOf p with
  | Some Dir =>
      match fs w !! p with
      | Some Dir => throw (FsError "EISDIR" p)
      | _ => putFs (<[p := File content]> (fs w))
      end
  | _ => throw (FsError "ENOENT" p)
  end.

End Fs.

(** ** The [User] model (Mongoose) *)

Definition hexDigit (c : ascii) : option N :=
  let n := N_of_ascii c in
  if (48 <=? n) && (n <=? 57) then Some (n - 48)
  else if (97 <=? n) && (n <=? 102) then Some (n - 87)
  else if (65 <=? n) && (n <=? 70) then Some (n - 55)
  else None.

Fixpoint hexValue (acc : N) (s : string) : option N :=
  match s with
  | EmptyString => Some acc
  | String c r =>
      match hexDigit c with
      | Some d => hexValue (16 * acc + d) r
      | None => None
      end
  end.

(** The cast of a route parameter to an ObjectId: a string of 24 hex digits
    denotes an id, any other string is a cast error.  (Mongoose before
    version 8 also takes a string of 12 characters for an id; the
    properties below speak of the strings that this cast accepts.) *)
Definition castObjectId (s : string) : option ObjectId :=
  if Nat.eqb (String.length s) 24 then hexValue 0 s else None.

Module User.

(** The [required: true] validator of a [String] path passes on a
    non-empty string only. *)
Definition validate (doc : UserDoc) : list string :=
  (if truthy (username doc) then [] else ["username"]) ++
  (if truthy (email doc) then [] else ["email"]) ++
  (if truthy (password doc) then [] else ["password"]).

(** [doc.save()] of a new document: validation, then an insert, which the
    unique index on [_id] refuses for an id already in the collection. *)
Definition save (doc : UserDoc) : M unit :=
  match validate doc with
  | [] =>
      w ← getWorld;
      match db w !! _id doc with
      | Some _ => throw (DuplicateKey (_id doc))
      | None => putDb (<[_id doc := doc]> (db w))
      end
  | failed => throw (ValidationError failed)
  end.

(** [User.find()]: every document of the collection. *)
Definition find : M (list UserDoc) :=
  w ← getWorld; mret (snd <$> map_to_list (db w)).

Definition findById (id : string) : M (option UserDoc) :=
  match castObjectId id with
  | None => throw (CastError id)
  | Some k => w ← getWorld; mret (db w !! k)
  end.

(** Casting an update.  Keys whose value is [undefined] are removed when
    [stripUndefined] holds and are written as [null] otherwise. *)
Definition castUpdate (stripUndefined : bool)
    (update : list (string * jsval)) : list (string * jsval) :=
  if stripUndefined
  then List.filter (λ kv, match snd kv with JUndefined => false | _ => true end) update
  else (λ kv, match snd kv with JUndefined => (fst kv, JNull) | _ => kv end) <$> update.

(** [$set] of one path of the schema; keys outside the schema are
    dropped. *)
Definition setPath (doc : UserDoc) (kv : string * jsval) : UserDoc :=
  let (k, v) := kv in
  if String.eqb k "username" then mkUser (_id doc) v (email doc) (password doc) (image doc)
  else if String.eqb k "email" then mkUser (_id doc) (username doc) v (password doc) (image doc)
  else if String.eqb k "password" then mkUser (_id doc) (username doc) (email doc) v (image doc)
  else if String.eqb k "image" then mkUser (_id doc) (username doc) (email doc) (password doc) v
  else doc.

(** [User.findByIdAndUpdate(id, update, { new: true })]: the document
    after the update, or [null] when no document has the id. *)
Definition findByIdAndUpdate (stripUndefined : bool) (id : string)
    (update : list (string * jsval)) : M (option UserDoc) :=
  match castObjectId id with
  | None => throw (CastError id)
  | Some k =>
      w ← getWorld;
      match db w !! k with
      | None => mret None
      | Some doc =>
          let doc' := fold_left setPath (castUpdate stripUndefined update) doc in
          putDb (<[k := doc']> (db w));; mret (Some doc')
      end
  end.

(** [User.findByIdAndDelete(id)]: the deleted document, or [null]. *)
Definition findByIdAndDelete (id : string) : M (option UserDoc) :=
  match castObjectId id with
  | None => throw (CastError id)
  | Some k =>
      w ← getWorld;
      match db w !! k with
      | None => mret None
      | Some doc => putDb (delete k (db w));; mret (Some doc)
      end
  end.

End User.

(** ** The server *)

Section Server.

(** The directory of [index.js], an absolute path. *)
Variable __dirname : path.

(** Whether the installed Mongoose removes [undefined] keys when it casts
    an update: always from version 6 on; before that only under the
    [omitUndefined] option, which line 128 does not pass. *)
Variable stripUndefined : bool.

(** The dotfile rule of the installed [send]: the paths [res.sendFile]
    refuses to serve because of a segment that starts with a dot. *)
Variable dotfileIgnored : path → bool.

Definition PORT : N := 8080.

(** Line 15. *)
Definition uploadDir : path := path_join __dirname ["uploads"].

(** Lines 16-18, run once when the process starts. *)
Definition ensureUploadDir (f : gmap path node) : Result (gmap path node) :=
  if negb (Fs.existsSync uploadDir f)
  then Fs.mkdirSync_recursive uploadDir f
  else Ok f.

(** *** Multer (lines 44-64) *)

Definition storage_destination : path := uploadDir.

Definition storage_filename (now : N) (file : FilePart) : string :=
  let sanitizedFileName := sanitizeFilename (originalname file) in
  decimal now +:+ "-" +:+ sanitizedFileName.

(** [cb(null, true)] or [cb(new Error(...), false)]. *)
Definition fileFilter (file : FilePart) : Result bool :=
  if String.prefix "image/" (mimetype file)
  then Ok true
  else Throw (FilterError "Only image files are allowed").

(** The disk storage engine: the file goes to
    [path.join(destination, filename)]. *)
Definition storage_handleFile (now : N) (file : FilePart) : M MulterFile :=
  let name := storage_filename now file in
  let finalPath := path_join storage_destination [name] in
  Fs.writeFile finalPath (bytes file);;
  mret (mkMulterFile name).

(** [upload.single('image')]: the value of [req.file] for the handler, or
    an error handed to [next].  A part without a file name is skipped;
    the filter runs before the storage engine. *)
Definition upload_single (now : N) (req : Request) : M (option MulterFile) :=
  match part_image req with
  | None => mret None
  | Some file =>
      if String.eqb (originalname file) "" then mret None
      else match fileFilter file with
           | Throw e => throw e
           | Ok false => mret None
           | Ok true => f ← storage_handleFile now file; mret (Some f)
           end
  end.

(** *** Express *)

Definition respond (code : N) (b : Body) : M Response :=
  mret (mkResponse code b).

(** A route runs its middleware and handler; an error handed to [next]
    reaches the default error handler, which answers 500. *)
Definition route (m : M Response) (w : World) : Response * World :=
  match m w with
  | (Ok r, w') => (r, w')
  | (Throw e, w') => (mkResponse 500 (ErrorPage e), w')
  end.

(** [res.sendFile(p, cb)]: the file is streamed with status 200, or [cb]
    is called with the error. *)
Definition res_sendFile (p : path) (cb : Error → M Response) : M Response :=
  w ← getWorld;
  match fs w !! p with
  | Some (File content) =>
      if dotfileIgnored p then cb (FsError "ENOENT" p)
      else respond 200 (SentFile p content)
  | Some Dir => cb (FsError "EISDIR" p)
  | None => cb (FsError "ENOENT" p)
  end.

(** Lines 68-70. *)
Definition get_root : World → Response * World :=
  route (respond 200 (Text "Hello World!")).

(** Lines 73-84; [oid] is the id [new User] generates. *)
Definition addUser_handler (oid : ObjectId) (req : Request)
    (file : option MulterFile) : M Response :=
  try_catch
    (let image := match file with
                  | Some f => JString ("/uploads/" +:+ filename f)
                  | None => JNull
                  end in
     let newUser := mkUser oid (ofField (body_username req))
                      (ofField (body_email req))
                      (ofField (body_password req)) image in
     User.save newUser;;
     respond 201 (JsonUser newUser))
    (λ err, respond 500 (JsonError (MessageOf err))).

Definition post_addUser (now : N) (oid : ObjectId) (req : Request)
  : World → Response * World :=
  route (file ← upload_single now req; addUser_handler oid req file).

(** Lines 93-99: the loaded document is changed, not the collection. *)
Definition withImageUrl (user : UserDoc) : UserDoc :=
  match image user with
  | JString s =>
      if truthy (image user)
      then mkUser (_id user) (username user) (email user) (password user)
             (JString ("http://localhost:8080" +:+ s))
      else user
  | _ => user
  end.

(** Lines 87-105. *)
Definition get_users : World → Response * World :=
  route (try_catch
    (users ← User.find;
     let usersWithImage := withImageUrl <$> users in
     respond 200 (JsonUsers usersWithImage))
    (λ err, respond 500 (JsonError (MessageOf err)))).

(** Lines 109-117. *)
Definition get_user (req : Request) : World → Response * World :=
  route (try_catch
    (user ← User.findById (params_id req);
     match user with
     | None => respond 404 (JsonError (Literal "User not found"))
     | Some u => respond 200 (JsonUser u)
     end)
    (λ err, respond 500 (JsonError (MessageOf err)))).

(** Line 127: the three text fields are always keys of the object, the
    image is spread in only when it is truthy. *)
Definition updatePatch (req : Request) (image : jsval)
  : list (string * jsval) :=
  [("username", ofField (body_username req));
   ("email", ofField (body_email req));
   ("password", ofField (body_password req))]
  ++ (if truthy image then [("image", image)] else []).

(** Lines 120-136. *)
Definition updateUser_handler (req : Request) (file : option MulterFile)
  : M Response :=
  try_catch
    (let image := match file with
                  | Some f => JString ("/uploads/" +:+ filename f)
                  | None => JUndefined
                  end in
     updatedUser ← User.findByIdAndUpdate stripUndefined (params_id req)
                      (updatePatch req image);
     match updatedUser with
     | None => respond 404 (JsonError (Literal "User not found"))
     | Some u => respond 200 (JsonUser u)
     end)
    (λ err, respond 500 (JsonError (MessageOf err))).

Definition put_user (now : N) (req : Request) : World → Response * World :=
  route (file ← upload_single now req; updateUser_handler req file).

(** Lines 139-147. *)
Definition delete_user (req : Request) : World → Response * World :=
  route (try_catch
    (deletedUser ← User.findByIdAndDelete (params_id req);
     match deletedUser with
     | None => respond 404 (JsonError (Literal "User not found"))
     | Some _ => respond 200 (JsonMessage "User deleted successfully")
     end)
    (λ err, respond 500 (JsonError (MessageOf err)))).

(** Line 161. *)
Definition imagePath (stored : string) : path :=
  path_join __dirname ["uploads"; basename stored].

(** Lines 150-174. *)
Definition get_userImage (req : Request) : World → Response * World :=
  route (try_catch
    (user ← User.findById (params_id req);
     match user with
     | Some (mkUser _ _ _ _ (JString s)) =>
         if truthy (JString s)
         then res_sendFile (imagePath s)
                (λ err, respond 500
                   (JsonErrorDetails (Literal "Error sending the image file")
                      (MessageOf err)))
         else respond 404
                (JsonError (Literal "User not found or image not available"))
     | _ => respond 404
              (JsonError (Literal "User not found or image not available"))
     end)
    (λ err, respond 500
       (JsonErrorDetails (Literal "Internal Server Error") (MessageOf err)))).

(** The routing table of lines 68-174: one call of the server is a route
    with what the environment supplies to it (the clock for the upload
    stage, the id a new document is given). *)
Inductive Call :=
| GetRoot
| PostAddUser (now : N) (oid : ObjectId) (req : Request)
| GetUsers
| GetUser (req : Request)
| PutUser (now : N) (req : Request)
| DeleteUser (req : Request)
| GetUserImage (req : Request).

Definition serve (c : Call) : World → Response * World :=
  match c with
  | GetRoot => get_root
  | PostAddUser now oid req => post_addUser now oid req
  | GetUsers => get_users
  | GetUser req => get_user req
  | PutUser now req => put_user now req
  | DeleteUser req => delete_user req
  | GetUserImage req => get_userImage req
  end.

(** One request takes the world to the world the route leaves. *)
Definition step (w w' : World) : Prop := ∃ c, (serve c w).2 = w'.

(** *** Names for the answers and documents the properties speak of *)

(** A segment that normalization keeps. *)
Definition properSeg (seg : string) : Prop :=
  seg ≠ "" ∧ seg ≠ "." ∧ seg ≠ "..".

(** [__dirname] is a resolved path: it has no empty, [.] or [..]
    segment. *)
Hypothesis dirname_normal : Forall properSeg __dirname.

Definition notFound : Response :=
  mkResponse 404 (JsonError (Literal "User not found")).

Definition noImage : Response :=
  mkResponse 404 (JsonError (Literal "User not found or image not available")).

Definition caught (e : Error) : Response :=
  mkResponse 500 (JsonError (MessageOf e)).

(** The value of [image] on lines 76 and 123. *)
Definition uploadedPath (f : MulterFile) : string := "/uploads/" +:+ filename f.

(** The document [findByIdAndUpdate] writes for the patch of line 127. *)
Definition updated (req : Request) (file : option MulterFile) (u : UserDoc)
  : UserDoc :=
  fold_left User.setPath
    (User.castUpdate stripUndefined
       (updatePatch req
          match file with
          | Some f => JString (uploadedPath f)
          | None => JUndefined
          end)) u.

(** The document [new User(...)] builds on line 78. *)
Definition created (oid : ObjectId) (req : Request) (file : option MulterFile)
  : UserDoc :=
  mkUser oid (ofField (body_username req)) (ofField (body_email req))
    (ofField (body_password req))
    match file with
    | Some f => JString (uploadedPath f)
    | None => JNull
    end.

(** Every stored image value is [null] or the path of a stored upload. *)
Definition generatedImages (w : World) : Prop :=
  ∀ k u, db w !! k = Some u →
    image u = JNull
    ∨ ∃ now file, image u = JString ("/uploads/" +:+ storage_filename now file).

Definition sendFailed (e : Error) : Response :=
  mkResponse 500
    (JsonErrorDetails (Literal "Error sending the image file") (MessageOf e)).

(** *** Sample data: a server in [/srv/app] with one user and her upload *)

Definition sampleDir : path := ["srv"; "app"].

Definition aliceId : string := "000000000000000000000005".

Definition alice : UserDoc :=
  mkUser 5 (JString "alice") (JString "a@x.com") (JString "p")
    (JString "/uploads/1700-a_b.png").

Definition sampleFs : gmap path node :=
  <[ ["srv"; "app"; "uploads"; "1700-a_b.png"] := File "PNG" ]>
    (<[ ["srv"; "app"; "uploads"] := Dir ]>
       (<[ ["srv"; "app"] := Dir ]> (<[ ["srv"] := Dir ]> {[ [] := Dir ]}))).

Definition sampleWorld : World := mkWorld {[ 5 := alice ]} sampleFs.

Definition renameBob : Request :=
  mkRequest aliceId (Some "bob") None None None.

Definition newPicture : Request :=
  mkRequest aliceId (Some "bob") None None
    (Some (mkFilePart "b.png" "image/png" "PNG2")).

Definition textUpload : Request :=
  mkRequest aliceId (Some "carol") (Some "c@x.com") (Some "p")
    (Some (mkFilePart "notes.txt" "text/plain" "TXT")).


Definition signUp : Request :=
  mkRequest "" (Some "dave") (Some "d@x.com") (Some "p") None.




(** *** Conditions on a request and invariants of the world *)

(** A decimal digit. *)
Definition isDigit (c : ascii) : bool :=
  (48 <=? N_of_ascii c) && (N_of_ascii c <=? 57).

(** A file part that Multer does not skip and the filter lets through. *)
Definition acceptedPart (file : FilePart) : Prop :=
  originalname file ≠ "" ∧ String.prefix "image/" (mimetype file) = true.

(** The upload directory is a directory and the generated name is not the
    name of a directory in it: the write stream of the storage engine opens. *)
Definition writable (now : N) (file : FilePart) (w : World) : Prop :=
  fs w !! uploadDir = Some Dir
  ∧ fs w !! (uploadDir ++ [storage_filename now file]) ≠ Some Dir.

(** The three required text fields are present and not empty. *)
Definition fieldsPresent (req : Request) : Prop :=
  truthy (ofField (body_username req)) = true
  ∧ truthy (ofField (body_email req)) = true
  ∧ truthy (ofField (body_password req)) = true.

(** Every record is stored under its own [_id]. *)
Definition keysMatchIds (w : World) : Prop :=
  ∀ k u, db w !! k = Some u → _id u = k.

(** Every stored image value names a regular file, read where retrieval by
    owning user looks for it. *)
Definition imagesExist (w : World) : Prop :=
  ∀ k u s, db w !! k = Some u → image u = JString s →
    ∃ content, fs w !! imagePath s = Some (File content).

(** More sample data: an empty collection, a sign-up with a picture, a
    sign-up without a username, a request with a malformed id. *)
Definition emptyWorld : World := mkWorld ∅ sampleFs.

Definition signUpWithPicture : Request :=
  mkRequest "" (Some "erin") (Some "e@x.com") (Some "p")
    (Some (mkFilePart "me:2024.png" "image/png" "ERIN")).


Definition malformedId : Request :=
  mkRequest "abc" (Some "bob") None None None.

Definition erinId : Request :=
  mkRequest "000000000000000000000006" None None None None.

(** The record and the world that [signUpWithPicture] leaves when it is
    served at time 1900 under the id 6 in [emptyWorld]. *)
Definition erin : UserDoc :=
  mkUser 6 (JString "erin") (JString "e@x.com") (JString "p")
    (JString "/uploads/1900-me_2024.png").

Definition erinWorld : World :=
  mkWorld {[ 6 := erin ]}
    (<[ ["srv"; "app"; "uploads"; "1900-me_2024.png"] := File "ERIN" ]> sampleFs).

(** Two requests whose file names differ in a replaced character only. *)
Definition pictureQuestion : Request :=
  mkRequest aliceId None None None
    (Some (mkFilePart "a?b.png" "image/png" "FIRST")).

Definition pictureColon : Request :=
  mkRequest aliceId None None None
    (Some (mkFilePart "a:b.png" "image/png" "SECOND")).

Definition emptyName : Request :=
  mkRequest aliceId (Some "") None None None.

(** ** Properties of the text helpers and of the sanitizer *)

Lemma invalidChar_spec (c : ascii) :
  invalidChar c = true ↔ c ∈ invalidChars.
Proof.
  unfold invalidChar. rewrite existsb_exists, list_elem_of_In. split.
  - intros (x & Hin & Heq). apply Ascii.eqb_eq in Heq. by subst.
  - intros Hin. exists c. split; [done | apply Ascii.eqb_refl].
Qed.

Lemma invalidChar_false (c : ascii) :
  invalidChar c = false ↔ c ∉ invalidChars.
Proof.
  rewrite <- invalidChar_spec. destruct (invalidChar c); naive_solver.
Qed.

Lemma replaced_is_valid (c : ascii) :
  invalidChar (if invalidChar c then "_"%char else c) = false.
Proof. destruct (invalidChar c) eqn:E; [reflexivity | exact E]. Qed.

Lemma sanitizeFilename_length (s : string) :
  String.length (sanitizeFilename s) = String.length s.
Proof. induction s as [|c s IH]; simpl; [done | by rewrite IH]. Qed.

Lemma sanitizeFilename_get (s : string) (i : nat) :
  String.get i (sanitizeFilename s)
  = (λ c, if invalidChar c then "_"%char else c) <$> String.get i s.
Proof.
  revert i. induction s as [|c s IH]; intros i; simpl; [done |].
  destruct i as [|i]; [done | apply IH].
Qed.

Lemma sanitizeFilename_chars (s : string) :
  Forall (λ c, invalidChar c = false) (chars (sanitizeFilename s)).
Proof.
  induction s as [|c s IH]; simpl; constructor;
    [apply replaced_is_valid | exact IH].
Qed.

(** Sanitizing a sanitized name changes nothing. *)
Lemma sanitizeFilename_idempotent (s : string) :
  sanitizeFilename (sanitizeFilename s) = sanitizeFilename s.
Proof.
  induction s as [|c s IH]; simpl; [done |].
  by rewrite replaced_is_valid, IH.
Qed.

Lemma chars_app (s t : string) : chars (s +:+ t) = chars s ++ chars t.
Proof. induction s as [|c s IH]; simpl; [done | by rewrite IH]. Qed.

Lemma unchars_chars (s : string) : unchars (chars s) = s.
Proof. induction s as [|c s IH]; simpl; [done | by rewrite IH]. Qed.

Lemma chars_unchars (l : list ascii) : chars (unchars l) = l.
Proof. induction l as [|c l IH]; simpl; [done | by rewrite IH]. Qed.

Lemma isSlash_invalid (c : ascii) : isSlash c = true → invalidChar c = true.
Proof.
  unfold isSlash. intros H. apply Ascii.eqb_eq in H. by subst.
Qed.

(** A decimal numeral has digits only. *)
Lemma decimal_chars (n : N) :
  Forall (λ c, isSlash c = false) (chars (decimal n)).
Proof.
  unfold decimal. generalize (N.to_uint n). intros d.
  assert (G : Forall (λ c, isSlash c = false) (chars (NilEmpty.string_of_uint d))).
  { induction d; simpl; try constructor; try done. }
  destruct d; simpl in *; try done; by repeat constructor.
Qed.

Lemma storage_filename_chars (now : N) (file : FilePart) :
  Forall (λ c, isSlash c = false) (chars (storage_filename now file)).
Proof.
  unfold storage_filename. rewrite !chars_app, !Forall_app. split_and!.
  - apply decimal_chars.
  - by repeat constructor.
  - eapply Forall_impl; [apply sanitizeFilename_chars |].
    intros c Hc. simpl in Hc. destruct (isSlash c) eqn:E; [|done].
    apply isSlash_invalid in E. congruence.
Qed.

(** ** Properties of the path functions *)

Lemma normStep_proper (stack : list string) (seg : string) :
  properSeg seg → normStep stack seg = seg :: stack.
Proof.
  intros (H1 & H2 & H3). unfold normStep.
  apply String.eqb_neq in H1, H2, H3. by rewrite H1, H2, H3.
Qed.

Lemma fold_normStep_proper (segs stack : list string) :
  Forall properSeg segs →
  fold_left normStep segs stack = rev segs ++ stack.
Proof.
  revert stack. induction segs as [|seg segs IH]; intros stack Hall; [done |].
  inversion Hall as [|? ? Hseg Hrest]; subst. simpl.
  rewrite normStep_proper by done. rewrite IH by done.
  by rewrite <- app_assoc.
Qed.

Lemma splitSlash_no_slash (s : string) :
  Forall (λ c, isSlash c = false) (chars s) → splitSlash s = [s].
Proof.
  induction s as [|c s IH]; simpl; [done |].
  intros Hall. inversion Hall as [|? ? Hc Hs]; subst.
  rewrite Hc. by rewrite IH.
Qed.

(** Joining a normalized directory with one name gives the entry of that
    name; with [.] or the empty string the directory itself; with [..]
    its parent. *)
Lemma path_join_one (base : path) (name : string) :
  Forall properSeg base →
  Forall (λ c, isSlash c = false) (chars name) →
  path_join base [name] =
    if String.eqb name "" then base
    else if String.eqb name "." then base
    else if String.eqb name ".." then removelast base
    else base ++ [name].
Proof.
  intros Hbase Hname. unfold path_join, normalizeSegs. simpl.
  rewrite splitSlash_no_slash by done. simpl.
  rewrite fold_left_app, (fold_normStep_proper base) by done. simpl.
  unfold normStep. rewrite app_nil_r.
  destruct (String.eqb name ""); [by rewrite rev_involutive |].
  destruct (String.eqb name "."); [by rewrite rev_involutive |].
  destruct (String.eqb name "..").
  - destruct base as [|b base' _] using rev_ind; [done |].
    rewrite rev_app_distr. simpl. rewrite rev_involutive.
    by rewrite removelast_last.
  - simpl. by rewrite rev_involutive.
Qed.

Lemma properSeg_uploads : properSeg "uploads".
Proof. by repeat split. Qed.

Lemma uploadDir_eq : uploadDir = __dirname ++ ["uploads"].
Proof.
  unfold uploadDir. rewrite path_join_one; [done | done |].
  simpl. by repeat constructor.
Qed.

Lemma uploadDir_normal : Forall properSeg uploadDir.
Proof.
  rewrite uploadDir_eq, Forall_app. split; [done |].
  constructor; [apply properSeg_uploads | constructor].
Qed.

Lemma takeWhile_Forall {A} (p : A → bool) (l : list A) :
  Forall (λ x, p x = true) (takeWhile p l).
Proof.
  induction l as [|x l IH]; simpl; [constructor |].
  destruct (p x) eqn:E; by constructor.
Qed.

(** [path.basename] returns one segment: no slash is left in it. *)
Lemma basename_chars (p : string) :
  Forall (λ c, isSlash c = false) (chars (basename p)).
Proof.
  unfold basename. rewrite chars_unchars.
  apply Forall_forall. intros c Hc.
  rewrite list_elem_of_In in Hc. apply in_rev in Hc.
  rewrite <- list_elem_of_In in Hc.
  pose proof (takeWhile_Forall (λ c, negb (isSlash c))
                (dropWhile isSlash (rev (chars p)))) as Hall.
  rewrite Forall_forall in Hall. apply Hall in Hc.
  by apply negb_true_iff in Hc.
Qed.

Lemma imagePath_eq (stored : string) :
  imagePath stored =
    if String.eqb (basename stored) "" then uploadDir
    else if String.eqb (basename stored) "." then uploadDir
    else if String.eqb (basename stored) ".." then __dirname
    else uploadDir ++ [basename stored].
Proof.
  unfold imagePath.
  assert (E : path_join __dirname ["uploads"; basename stored]
              = path_join uploadDir [basename stored]).
  { unfold path_join, normalizeSegs. f_equal.
    rewrite uploadDir_eq. simpl.
    by rewrite <- app_assoc. }
  rewrite E, path_join_one;
    [| apply uploadDir_normal | apply basename_chars].
  repeat case_match; try done.
  rewrite uploadDir_eq. by rewrite removelast_last.
Qed.

Lemma storage_filename_proper (now : N) (file : FilePart) :
  properSeg (storage_filename now file).
Proof.
  assert (G : ∀ s, "-"%char ∈ chars s → properSeg s).
  { intros s Hin. repeat split; intros ->; simpl in Hin;
      repeat (apply elem_of_cons in Hin as [Hin | Hin]; [done |]);
      by apply elem_of_nil in Hin. }
  apply G. unfold storage_filename. rewrite !chars_app. simpl.
  apply elem_of_app. right. apply elem_of_cons. by left.
Qed.

(** The upload goes to the entry of the upload directory that carries
    the generated name. *)
Lemma finalPath_eq (now : N) (file : FilePart) :
  path_join storage_destination [storage_filename now file]
  = uploadDir ++ [storage_filename now file].
Proof.
  unfold storage_destination.
  rewrite path_join_one;
    [| apply uploadDir_normal | apply storage_filename_chars].
  destruct (storage_filename_proper now file) as (H1 & H2 & H3).
  apply String.eqb_neq in H1, H2, H3. by rewrite H1, H2, H3.
Qed.

(** ** Properties of the start-up code and of the upload stage *)

Lemma mkdirp_ok (rest : list string) (pre : path) (f : gmap path node) :
  (∀ i c, f !! (pre ++ take i rest) ≠ Some (File c)) →
  ∃ f', Fs.mkdirp pre rest f = Ok f' ∧ f' !! (pre ++ rest) = Some Dir.
Proof.
  revert pre f. induction rest as [|seg rest IH]; intros pre f Hfree.
  - pose proof (Hfree 0%nat) as H0. simpl in *. rewrite app_nil_r in *.
    destruct (f !! pre) as [[|c]|] eqn:E; try (by destruct (H0 c));
      eexists; (split; [done | apply lookup_insert_eq]).
  - pose proof (Hfree 0%nat) as H0. simpl in H0. rewrite app_nil_r in H0.
    assert (Hnext : ∃ f', Fs.mkdirp (pre ++ [seg]) rest (<[pre := Dir]> f) = Ok f'
                          ∧ f' !! ((pre ++ [seg]) ++ rest) = Some Dir).
    { apply IH. intros i c. rewrite <- app_assoc. simpl.
      rewrite lookup_insert_ne; [apply (Hfree (S i)) |].
      intros Heq. apply (f_equal (@List.length string)) in Heq.
      rewrite length_app in Heq. simpl in Heq. lia. }
    destruct Hnext as (f' & Hrun & Hdir).
    rewrite <- app_assoc in Hdir. simpl in Hdir.
    exists f'. split; [| done]. simpl.
    destruct (f !! pre) as [[|c]|] eqn:E; try done. by destruct (H0 c).
Qed.

Lemma ensureUploadDir_present (f : gmap path node) :
  is_Some (f !! uploadDir) → ensureUploadDir f = Ok f.
Proof.
  intros H. unfold ensureUploadDir, Fs.existsSync.
  by rewrite bool_decide_eq_true_2.
Qed.

Lemma ensureUploadDir_absent (f : gmap path node) :
  f !! uploadDir = None →
  (∀ i c, f !! take i uploadDir ≠ Some (File c)) →
  ∃ f', ensureUploadDir f = Ok f' ∧ f' !! uploadDir = Some Dir.
Proof.
  intros Hnone Hfree. unfold ensureUploadDir, Fs.existsSync.
  rewrite bool_decide_eq_false_2; [| rewrite Hnone; by intros [? ?]].
  simpl. apply (mkdirp_ok uploadDir []). exact Hfree.
Qed.

Ltac run :=
  unfold route, try_catch, respond, mbind, M_bind, bind, mret, M_ret, ret,
    throw, getWorld, putDb, putFs in *; simpl in *.

Lemma upload_single_none (now : N) (req : Request) (w : World) :
  part_image req = None → upload_single now req w = (Ok None, w).
Proof. intros H. unfold upload_single. by rewrite H. Qed.

Lemma upload_single_rejected (now : N) (req : Request) (w : World)
    (file : FilePart) :
  part_image req = Some file →
  originalname file ≠ "" →
  String.prefix "image/" (mimetype file) = false →
  upload_single now req w
  = (Throw (FilterError "Only image files are allowed"), w).
Proof.
  intros Hpart Hname Hmime. unfold upload_single, fileFilter.
  apply String.eqb_neq in Hname. by rewrite Hpart, Hname, Hmime.
Qed.

Lemma upload_single_stored (now : N) (req : Request) (w : World)
    (file : FilePart) :
  part_image req = Some file →
  originalname file ≠ "" →
  String.prefix "image/" (mimetype file) = true →
  fs w !! uploadDir = Some Dir →
  fs w !! (uploadDir ++ [storage_filename now file]) ≠ Some Dir →
  upload_single now req w
  = (Ok (Some (mkMulterFile (storage_filename now file))),
     mkWorld (db w)
       (<[uploadDir ++ [storage_filename now file] := File (bytes file)]> (fs w))).
Proof.
  intros Hpart Hname Hmime Hdir Htarget.
  unfold upload_single, fileFilter, storage_handleFile, Fs.writeFile.
  apply String.eqb_neq in Hname. rewrite Hpart, Hname, Hmime.
  rewrite finalPath_eq. run. unfold parentOf.
  rewrite removelast_last, Hdir.
  destruct (fs w !! (uploadDir ++ [storage_filename now file]))
    as [[|c]|] eqn:E; done.
Qed.

(** Whatever the upload stage does, it leaves the collection alone; when
    it hands a file to the handler, that file is the request's part,
    accepted by the filter and written under the generated name. *)
Lemma upload_single_inv (now : N) (req : Request) (w w' : World)
    (r : Result (option MulterFile)) :
  upload_single now req w = (r, w') →
  db w' = db w ∧
  match r with
  | Ok (Some f) =>
      ∃ file, part_image req = Some file
              ∧ String.prefix "image/" (mimetype file) = true
              ∧ f = mkMulterFile (storage_filename now file)
              ∧ fs w' = <[uploadDir ++ [storage_filename now file]
                           := File (bytes file)]> (fs w)
  | _ => w' = w
  end.
Proof.
  unfold upload_single, fileFilter, storage_handleFile, Fs.writeFile.
  destruct (part_image req) as [file|]; [| by intros [= <- <-]].
  destruct (String.eqb (originalname file) ""); [by intros [= <- <-] |].
  destruct (String.prefix "image/" (mimetype file)) eqn:Hmime;
    [| by intros [= <- <-]].
  cbv zeta. rewrite finalPath_eq. unfold parentOf. rewrite removelast_last.
  run.
  destruct (fs w !! uploadDir) as [[|c]|]; try by intros [= <- <-].
  destruct (fs w !! (uploadDir ++ [storage_filename now file]))
    as [[|c]|]; try (by intros [= <- <-]);
    intros [= <- <-]; (split; [done |]); by exists file.
Qed.

(** ** What each route answers *)

Lemma get_user_eq (req : Request) (w : World) :
  get_user req w =
    (match castObjectId (params_id req) with
     | None => caught (CastError (params_id req))
     | Some k => match db w !! k with
                 | None => notFound
                 | Some u => mkResponse 200 (JsonUser u)
                 end
     end, w).
Proof.
  unfold get_user, User.findById.
  destruct (castObjectId (params_id req)) as [k|]; run; [| done].
  by destruct (db w !! k).
Qed.

Lemma delete_user_eq (req : Request) (w : World) :
  delete_user req w =
    match castObjectId (params_id req) with
    | None => (caught (CastError (params_id req)), w)
    | Some k =>
        match db w !! k with
        | None => (notFound, w)
        | Some _ => (mkResponse 200 (JsonMessage "User deleted successfully"),
                     mkWorld (delete k (db w)) (fs w))
        end
    end.
Proof.
  unfold delete_user, User.findByIdAndDelete.
  destruct (castObjectId (params_id req)) as [k|]; run; [| done].
  by destruct (db w !! k).
Qed.

Lemma get_users_eq (w : World) :
  get_users w
  = (mkResponse 200 (JsonUsers (withImageUrl <$> (snd <$> map_to_list (db w)))), w).
Proof. reflexivity. Qed.

Lemma updateUser_handler_eq (req : Request) (file : option MulterFile)
    (w : World) :
  route (updateUser_handler req file) w =
    match castObjectId (params_id req) with
    | None => (caught (CastError (params_id req)), w)
    | Some k =>
        match db w !! k with
        | None => (notFound, w)
        | Some u => (mkResponse 200 (JsonUser (updated req file u)),
                     mkWorld (<[k := updated req file u]> (db w)) (fs w))
        end
    end.
Proof.
  unfold updateUser_handler, User.findByIdAndUpdate.
  destruct (castObjectId (params_id req)) as [k|]; run; [| done].
  by destruct (db w !! k).
Qed.

Lemma put_user_eq (now : N) (req : Request) (w : World) :
  put_user now req w =
    match upload_single now req w with
    | (Ok file, w1) => route (updateUser_handler req file) w1
    | (Throw e, w1) => (mkResponse 500 (ErrorPage e), w1)
    end.
Proof.
  unfold put_user, route, mbind, M_bind, bind.
  by destruct (upload_single now req w) as [[file|e] w1].
Qed.

Lemma post_addUser_eq (now : N) (oid : ObjectId) (req : Request) (w : World) :
  post_addUser now oid req w =
    match upload_single now req w with
    | (Ok file, w1) => route (addUser_handler oid req file) w1
    | (Throw e, w1) => (mkResponse 500 (ErrorPage e), w1)
    end.
Proof.
  unfold post_addUser, route, mbind, M_bind, bind.
  by destruct (upload_single now req w) as [[file|e] w1].
Qed.

Lemma addUser_handler_eq (oid : ObjectId) (req : Request)
    (file : option MulterFile) (w : World) :
  route (addUser_handler oid req file) w =
    match User.validate (created oid req file) with
    | [] =>
        match db w !! oid with
        | Some _ => (caught (DuplicateKey oid), w)
        | None => (mkResponse 201 (JsonUser (created oid req file)),
                   mkWorld (<[oid := created oid req file]> (db w)) (fs w))
        end
    | p :: ps => (caught (ValidationError (p :: ps)), w)
    end.
Proof.
  unfold addUser_handler, User.save, created, uploadedPath. run.
  destruct (User.validate _) as [|p ps]; simpl; [| done].
  by destruct (db w !! oid).
Qed.

Lemma get_userImage_eq (req : Request) (w : World) :
  get_userImage req w =
    (match castObjectId (params_id req) with
     | None =>
         mkResponse 500
           (JsonErrorDetails (Literal "Internal Server Error")
              (MessageOf (CastError (params_id req))))
     | Some k =>
         match db w !! k with
         | None => noImage
         | Some u =>
             match image u with
             | JString s =>
                 if String.eqb s "" then noImage
                 else match fs w !! imagePath s with
                      | Some (File content) =>
                          if dotfileIgnored (imagePath s)
                          then sendFailed (FsError "ENOENT" (imagePath s))
                          else mkResponse 200 (SentFile (imagePath s) content)
                      | Some Dir => sendFailed (FsError "EISDIR" (imagePath s))
                      | None => sendFailed (FsError "ENOENT" (imagePath s))
                      end
             | _ => noImage
             end
         end
     end, w).
Proof.
  unfold get_userImage, User.findById, res_sendFile.
  destruct (castObjectId (params_id req)) as [k|]; run; [| done].
  destruct (db w !! k) as [[i un em pw [| |s]]|]; simpl; try done.
  destruct (String.eqb s ""); simpl; [done |].
  destruct (fs w !! imagePath s) as [[|c]|]; try done.
  by destruct (dotfileIgnored (imagePath s)).
Qed.

Ltac elem_cases :=
  repeat match goal with
         | H : _ ∈ [] |- _ => by apply elem_of_nil in H
         | H : _ ∈ _ :: _ |- _ => apply elem_of_cons in H as [H | H]
         end.

Lemma upload_single_db (now : N) (req : Request) (w w' : World)
    (r : Result (option MulterFile)) :
  upload_single now req w = (r, w') → db w' = db w.
Proof.
  unfold upload_single, fileFilter, storage_handleFile, Fs.writeFile.
  destruct (part_image req) as [file|]; [| by intros [= <- <-]].
  destruct (String.eqb (originalname file) ""); [by intros [= <- <-] |].
  destruct (String.prefix "image/" (mimetype file)); [| by intros [= <- <-]].
  run.
  destruct (fs w !! parentOf _) as [[|c]|]; try by intros [= <- <-].
  destruct (fs w !! path_join _ _) as [[|c]|]; by intros [= <- <-].
Qed.

Lemma updated_id (req : Request) (file : option MulterFile) (u : UserDoc) :
  _id (updated req file u) = _id u.
Proof.
  unfold updated, updatePatch, User.castUpdate.
  destruct stripUndefined, file, (body_username req), (body_email req),
    (body_password req); reflexivity.
Qed.

(** The image is written only when a file was stored. *)
Lemma updated_image (req : Request) (file : option MulterFile) (u : UserDoc) :
  image (updated req file u) =
    match file with
    | Some f => JString (uploadedPath f)
    | None => image u
    end.
Proof.
  unfold updated, updatePatch, User.castUpdate.
  destruct stripUndefined, file, (body_username req), (body_email req),
    (body_password req); reflexivity.
Qed.

(** The text fields when undefined keys are removed from the update. *)
Lemma updated_text_stripped (req : Request) (file : option MulterFile)
    (u : UserDoc) :
  stripUndefined = true →
  username (updated req file u) = default (username u) (JString <$> body_username req)
  ∧ email (updated req file u) = default (email u) (JString <$> body_email req)
  ∧ password (updated req file u) = default (password u) (JString <$> body_password req).
Proof.
  intros Hstrip. unfold updated, updatePatch, User.castUpdate.
  rewrite Hstrip.
  destruct file, (body_username req), (body_email req),
    (body_password req); done.
Qed.

(** The text fields when undefined keys are written as [null]. *)
Lemma updated_text_nulled (req : Request) (file : option MulterFile)
    (u : UserDoc) :
  stripUndefined = false →
  username (updated req file u) = default JNull (JString <$> body_username req)
  ∧ email (updated req file u) = default JNull (JString <$> body_email req)
  ∧ password (updated req file u) = default JNull (JString <$> body_password req).
Proof.
  intros Hstrip. unfold updated, updatePatch, User.castUpdate.
  rewrite Hstrip.
  destruct file, (body_username req), (body_email req),
    (body_password req); done.
Qed.

(** The patch of line 127 holds an [undefined] entry for each absent text
    field, and casting the update removes exactly those entries. *)
Lemma updatePatch_absent (req : Request) (img : jsval) (key : string) :
  (key, JUndefined) ∈ updatePatch req img →
  key ∉ (fst <$> User.castUpdate true (updatePatch req img)).
Proof.
  unfold updatePatch, User.castUpdate.
  destruct (body_username req), (body_email req), (body_password req),
    img as [| |path]; simpl; try destruct (negb (String.eqb path ""));
    simpl; intros Hin Hout; elem_cases; simplify_eq.
Qed.

(** Without the removal, the cast turns each of those entries into a
    [null] entry. *)
Lemma updatePatch_absent_nulled (req : Request) (img : jsval) (key : string) :
  (key, JUndefined) ∈ updatePatch req img →
  (key, JNull) ∈ User.castUpdate false (updatePatch req img).
Proof.
  unfold updatePatch, User.castUpdate.
  destruct (body_username req), (body_email req), (body_password req),
    img as [| |path]; simpl; try destruct (negb (String.eqb path ""));
    simpl; intros Hin; elem_cases; simplify_eq;
    try (by left); try (by right; left); try (by right; right; left).
Qed.

(** ** What the server stores, over any sequence of requests *)

Lemma takeWhile_app_stop {A} (p : A → bool) (l r : list A) (y : A) :
  Forall (λ x, p x = true) l → p y = false →
  takeWhile p (l ++ y :: r) = l.
Proof.
  intros Hall Hy. induction Hall as [|x l Hx Hl IH]; simpl.
  - by rewrite Hy.
  - by rewrite Hx, IH.
Qed.

(** The last component of [/uploads/<name>] is [name]. *)
Lemma basename_of_upload (name : string) :
  name ≠ "" →
  Forall (λ c, isSlash c = false) (chars name) →
  basename ("/uploads/" +:+ name) = name.
Proof.
  intros Hne Hall. unfold basename. rewrite chars_app, rev_app_distr.
  assert (Hrev : Forall (λ c, isSlash c = false) (rev (chars name))).
  { apply Forall_forall. intros c Hc. rewrite list_elem_of_In in Hc.
    apply in_rev in Hc. rewrite <- list_elem_of_In in Hc.
    rewrite Forall_forall in Hall. by apply Hall. }
  destruct (rev (chars name)) as [|c l] eqn:E.
  - destruct name; [done |]. apply (f_equal (@List.length ascii)) in E.
    rewrite length_rev in E. simpl in E. lia.
  - inversion Hrev as [|? ? Hc Hl]; subst. simpl. rewrite Hc. simpl.
    rewrite Hc. simpl. rewrite takeWhile_app_stop; [| | done].
    + change (rev l ++ [c]) with (rev (c :: l)).
      by rewrite <- E, rev_involutive, unchars_chars.
    + eapply Forall_impl; [exact Hl |]. intros x Hx. simpl. by rewrite Hx.
Qed.

(** For a stored upload, the path read by retrieval by owning user is the
    path the upload was written to. *)
Lemma imagePath_of_upload (now : N) (file : FilePart) :
  imagePath ("/uploads/" +:+ storage_filename now file)
  = path_join storage_destination [storage_filename now file].
Proof.
  rewrite finalPath_eq, imagePath_eq.
  destruct (storage_filename_proper now file) as (H1 & H2 & H3).
  rewrite basename_of_upload; [| done | apply storage_filename_chars].
  apply String.eqb_neq in H1, H2, H3. by rewrite H1, H2, H3.
Qed.

Lemma generatedImages_db (w w' : World) :
  db w' = db w → generatedImages w → generatedImages w'.
Proof. unfold generatedImages. intros ->. done. Qed.

Lemma generatedImages_insert (w w1 : World) (k : ObjectId) (u : UserDoc) :
  generatedImages w →
  (image u = JNull
   ∨ ∃ now file, image u = JString ("/uploads/" +:+ storage_filename now file)) →
  generatedImages (mkWorld (<[k := u]> (db w)) (fs w1)).
Proof.
  intros Hinv Hu k' u'. simpl. rewrite lookup_insert.
  case_decide; [intros [= <-]; exact Hu | apply Hinv].
Qed.

(** What [req.file] can be after the upload stage. *)
Lemma upload_single_file (now : N) (req : Request) (w w1 : World)
    (file : option MulterFile) :
  upload_single now req w = (Ok file, w1) →
  db w1 = db w
  ∧ (file = None ∨ ∃ part, file = Some (mkMulterFile (storage_filename now part))).
Proof.
  intros Hup. destruct (upload_single_inv _ _ _ _ _ Hup) as [Hdb Hfile].
  split; [done |]. destruct file as [f|]; [right | by left].
  destruct Hfile as (part & _ & _ & -> & _). by exists part.
Qed.

(** Each route keeps the stored image values generated. *)
Lemma serve_generatedImages (c : Call) (w : World) :
  generatedImages w → generatedImages (serve c w).2.
Proof.
  intros Hinv. destruct c as [|now oid req| |req|now req|req|req]; simpl.
  - done.
  - rewrite post_addUser_eq.
    destruct (upload_single now req w) as [[file|e] w1] eqn:Hup; simpl.
    + destruct (upload_single_file _ _ _ _ _ Hup) as [Hdb Hfile].
      rewrite addUser_handler_eq, Hdb.
      destruct (User.validate _); [| by apply (generatedImages_db w)].
      destruct (db w !! oid); [by apply (generatedImages_db w) |].
      apply generatedImages_insert; [done |]. simpl.
      destruct Hfile as [-> | (part & ->)]; [by left | right].
      by exists now, part.
    + apply (generatedImages_db w); [| done].
      by apply (upload_single_db _ _ _ _ _ Hup).
  - done.
  - by rewrite get_user_eq.
  - rewrite put_user_eq.
    destruct (upload_single now req w) as [[file|e] w1] eqn:Hup; simpl.
    + destruct (upload_single_file _ _ _ _ _ Hup) as [Hdb Hfile].
      rewrite updateUser_handler_eq, Hdb.
      destruct (castObjectId (params_id req)) as [k|];
        [| by apply (generatedImages_db w)].
      destruct (db w !! k) as [u|] eqn:Hu; [| by apply (generatedImages_db w)].
      apply generatedImages_insert; [done |]. rewrite updated_image.
      destruct Hfile as [-> | (part & ->)]; [by apply (Hinv k) | right].
      by exists now, part.
    + apply (generatedImages_db w); [| done].
      by apply (upload_single_db _ _ _ _ _ Hup).
  - rewrite delete_user_eq.
    destruct (castObjectId (params_id req)) as [k|]; [| done].
    destruct (db w !! k) as [u|]; [| done].
    intros k' u'. simpl. rewrite lookup_delete_Some. intros [_ Hk'].
    by apply (Hinv k').
  - by rewrite get_userImage_eq.
Qed.

(** From a world whose stored image values are generated, so from an empty
    collection, every sequence of requests leads to such a world. *)
Lemma requests_keep_generatedImages (w w' : World) :
  rtc step w w' → generatedImages w → generatedImages w'.
Proof.
  induction 1 as [|w w1 w' (c & <-) _ IH]; [done |].
  intros Hinv. by apply IH, serve_generatedImages.
Qed.

(** The upload directory is the same node after every route. *)
Lemma serve_keeps_uploadDir (c : Call) (w : World) :
  fs (serve c w).2 !! uploadDir = fs w !! uploadDir.
Proof.
  assert (Hup : ∀ now req r w1, upload_single now req w = (r, w1) →
            fs w1 !! uploadDir = fs w !! uploadDir).
  { intros now req r w1 H. destruct (upload_single_inv _ _ _ _ _ H) as [_ Hr].
    destruct r as [[f|]|e]; try by rewrite Hr.
    destruct Hr as (part & _ & _ & _ & ->).
    apply lookup_insert_ne. intros Heq.
    apply (f_equal (@List.length string)) in Heq.
    rewrite length_app in Heq. simpl in Heq. lia. }
  destruct c as [|now oid req| |req|now req|req|req]; simpl.
  - done.
  - rewrite post_addUser_eq.
    destruct (upload_single now req w) as [[file|e] w1] eqn:E; simpl;
      [| by apply (Hup now req (Throw e))].
    rewrite addUser_handler_eq.
    repeat case_match; simpl; by apply (Hup now req (Ok file)).
  - done.
  - by rewrite get_user_eq.
  - rewrite put_user_eq.
    destruct (upload_single now req w) as [[file|e] w1] eqn:E; simpl;
      [| by apply (Hup now req (Throw e))].
    rewrite updateUser_handler_eq.
    repeat case_match; simpl; by apply (Hup now req (Ok file)).
  - rewrite delete_user_eq. by repeat case_match.
  - by rewrite get_userImage_eq.
Qed.

(** ** The claims *)



(** C3.  A request that carries a file whose declared MIME type does not
    begin with [image/] is refused by the filter before the storage
    engine runs: the file system and the collection are left as they
    were (no file is written, no user is created or changed) and the
    client receives an error response, status 500 with the filter's
    error, on the create route as on the update route. *)
Theorem non_image_upload_rejected (now : N) (oid : ObjectId) (req : Request)
    (w : World) (file : FilePart) :
  part_image req = Some file →
  originalname file ≠ "" →
  String.prefix "image/" (mimetype file) = false →
  fileFilter file = Throw (FilterError "Only image files are allowed")
  ∧ upload_single now req w
    = (Throw (FilterError "Only image files are allowed"), w)
  ∧ post_addUser now oid req w
    = (mkResponse 500 (ErrorPage (FilterError "Only image files are allowed")), w)
  ∧ put_user now req w
    = (mkResponse 500 (ErrorPage (FilterError "Only image files are allowed")), w).
Proof.
  intros Hpart Hname Hmime.
  pose proof (upload_single_rejected now req w file Hpart Hname Hmime) as Hup.
  split_and!.
  - unfold fileFilter. by rewrite Hmime.
  - exact Hup.
  - by rewrite post_addUser_eq, Hup.
  - by rewrite put_user_eq, Hup.
Qed.

(** C4.  For every input string the sanitizer returns a string of the
    same length in which each of the nine characters (less-than,
    greater-than, colon, double quote, slash, backslash, bar, question
    mark, star) is replaced by an underscore and every other character
    is kept at its position; none of the nine occurs in the result.  The
    sanitizer is a total function of its argument alone. *)
Theorem sanitizeFilename_replaces_invalid (s : string) :
  invalidChars = ["<"; ">"; ":"; quoteChar; "/"; "\"; "|"; "?"; "*"]%char
  ∧ String.length (sanitizeFilename s) = String.length s
  ∧ (∀ i, String.get i (sanitizeFilename s)
          = (λ c, if bool_decide (c ∈ invalidChars) then "_"%char else c)
              <$> String.get i s)
  ∧ Forall (λ c, c ∉ invalidChars) (chars (sanitizeFilename s)).
Proof.
  split_and!.
  - reflexivity.
  - apply sanitizeFilename_length.
  - intros i. rewrite sanitizeFilename_get.
    destruct (String.get i s) as [c|]; simpl; [| done]. f_equal.
    destruct (invalidChar c) eqn:E.
    + apply invalidChar_spec in E. by rewrite bool_decide_eq_true_2.
    + apply invalidChar_false in E. by rewrite bool_decide_eq_false_2.
  - eapply Forall_impl; [apply sanitizeFilename_chars |].
    intros c Hc. by apply invalidChar_false.
Qed.

(** C5.  When delete-by-id answers with its success acknowledgment, a
    following get-by-id of the same id answers not-found.  The delete
    removes that one record from the collection and leaves the file
    system, so also the uploaded file of the record, as it was. *)
Theorem delete_then_get (req : Request) (w w' : World) :
  delete_user req w
    = (mkResponse 200 (JsonMessage "User deleted successfully"), w') →
  (∀ req', castObjectId (params_id req') = castObjectId (params_id req) →
     get_user req' w'
     = (mkResponse 404 (JsonError (Literal "User not found")), w'))
  ∧ fs w' = fs w
  ∧ ∃ k u, castObjectId (params_id req) = Some k
           ∧ db w !! k = Some u
           ∧ db w' = delete k (db w).
Proof.
  rewrite delete_user_eq.
  destruct (castObjectId (params_id req)) as [k|] eqn:Hcast; [| done].
  destruct (db w !! k) as [u|] eqn:Hu; [| done].
  intros [= <-]. split_and!; [| done | by exists k, u].
  intros req' Hsame. rewrite get_user_eq, Hsame. simpl.
  by rewrite lookup_delete_eq.
Qed.

(** C6.  List-all answers 200 with one representation per stored user;
    for a stored user whose image field is a non-empty string the
    representation carries [http://localhost:8080] followed by the stored
    relative path, and is otherwise the stored record.  The world after
    the call is the world before it: the collection still holds the
    relative path. *)
Theorem get_users_rewrites_response_only (w : World) :
  ∃ us, get_users w = (mkResponse 200 (JsonUsers us), w)
    ∧ (∀ k u s, db w !! k = Some u → image u = JString s → s ≠ "" →
         mkUser (_id u) (username u) (email u) (password u)
           (JString ("http://localhost:8080" +:+ s)) ∈ us)
    ∧ (∀ k u, db w !! k = Some u → truthy (image u) = false → u ∈ us)
    ∧ (∀ v, v ∈ us → ∃ k u, db w !! k = Some u ∧ v = withImageUrl u).
Proof.
  exists (withImageUrl <$> (snd <$> map_to_list (db w))).
  assert (Hmem : ∀ k u, db w !! k = Some u →
            withImageUrl u ∈ withImageUrl <$> (snd <$> map_to_list (db w))).
  { intros k u Hu. apply list_elem_of_fmap_2, list_elem_of_fmap.
    exists (k, u). split; [done | by apply elem_of_map_to_list]. }
  split_and!.
  - apply get_users_eq.
  - intros k u s Hu Himg Hs. specialize (Hmem k u Hu).
    unfold withImageUrl in Hmem. rewrite Himg in Hmem. simpl in Hmem.
    apply String.eqb_neq in Hs. by rewrite Hs in Hmem.
  - intros k u Hu Himg. specialize (Hmem k u Hu).
    unfold withImageUrl in Hmem. rewrite Himg in Hmem.
    by destruct (image u).
  - intros v Hv. apply list_elem_of_fmap in Hv as (u & -> & Hu).
    apply list_elem_of_fmap in Hu as ([k u'] & -> & Hku).
    apply elem_of_map_to_list in Hku. by exists k, u'.
Qed.


(** C8.  A file part that the filter accepts is written under the name
    made of the decimal millisecond timestamp, a dash and the sanitized
    original name, as an entry of the one upload directory,
    [__dirname/uploads]: it is stored when that directory exists and the
    name is not taken by a directory, and whenever the upload stage hands
    a file to the handler it was stored so.  The start-up code leaves an
    existing upload directory alone and creates a missing one, provided
    no regular file lies on the way to it; no route removes or replaces
    the directory afterwards. *)
Theorem upload_generated_name (now : N) (req : Request) (w : World)
    (file : FilePart) :
  part_image req = Some file →
  originalname file ≠ "" →
  String.prefix "image/" (mimetype file) = true →
  let name := decimal now +:+ "-" +:+ sanitizeFilename (originalname file) in
  storage_filename now file = name
  ∧ uploadDir = __dirname ++ ["uploads"]
  ∧ path_join storage_destination [name] = uploadDir ++ [name]
  ∧ (fs w !! uploadDir = Some Dir →
     fs w !! (uploadDir ++ [name]) ≠ Some Dir →
     upload_single now req w
     = (Ok (Some (mkMulterFile name)),
        mkWorld (db w) (<[uploadDir ++ [name] := File (bytes file)]> (fs w))))
  ∧ (∀ f w1, upload_single now req w = (Ok (Some f), w1) →
       filename f = name
       ∧ fs w1 = <[uploadDir ++ [name] := File (bytes file)]> (fs w)
       ∧ db w1 = db w)
  ∧ (∀ f0, is_Some (f0 !! uploadDir) → ensureUploadDir f0 = Ok f0)
  ∧ (∀ f0, f0 !! uploadDir = None →
       (∀ i c, f0 !! take i uploadDir ≠ Some (File c)) →
       ∃ f1, ensureUploadDir f0 = Ok f1 ∧ f1 !! uploadDir = Some Dir)
  ∧ (∀ c w0, fs (serve c w0).2 !! uploadDir = fs w0 !! uploadDir).
Proof.
  intros Hpart Hname Hmime name. split_and!.
  - reflexivity.
  - apply uploadDir_eq.
  - apply (finalPath_eq now file).
  - intros Hdir Htarget. by apply upload_single_stored.
  - intros f w1 Hup.
    destruct (upload_single_inv _ _ _ _ _ Hup)
      as (Hdb & file' & Hpart' & _ & -> & Hfs).
    rewrite Hpart in Hpart'. injection Hpart' as <-. by split_and!.
  - apply ensureUploadDir_present.
  - apply ensureUploadDir_absent.
  - apply serve_keeps_uploadDir.
Qed.

(** C9.  Creating a user with a non-empty username, email and password and
    no image file, under a fresh id, answers 201 with the created record;
    fetching by the id of that record then answers 200 with the same
    record, whose image field is [null]. *)
Theorem create_then_get_no_image (now : N) (oid : ObjectId) (req : Request)
    (w : World) (name mail pass : string) :
  body_username req = Some name → name ≠ "" →
  body_email req = Some mail → mail ≠ "" →
  body_password req = Some pass → pass ≠ "" →
  part_image req = None →
  db w !! oid = None →
  ∃ u w', post_addUser now oid req w = (mkResponse 201 (JsonUser u), w')
    ∧ u = mkUser oid (JString name) (JString mail) (JString pass) JNull
    ∧ image u = JNull
    ∧ ∀ req', castObjectId (params_id req') = Some (_id u) →
        get_user req' w' = (mkResponse 200 (JsonUser u), w').
Proof.
  intros Hn Hn0 Hm Hm0 Hp Hp0 Hpart Hfresh.
  exists (created oid req None),
    (mkWorld (<[oid := created oid req None]> (db w)) (fs w)).
  assert (Hvalid : User.validate (created oid req None) = []).
  { unfold User.validate, created. simpl. rewrite Hn, Hm, Hp. simpl.
    apply String.eqb_neq in Hn0, Hm0, Hp0. by rewrite Hn0, Hm0, Hp0. }
  split_and!.
  - rewrite post_addUser_eq, upload_single_none, addUser_handler_eq by done.
    by rewrite Hvalid, Hfresh.
  - unfold created. by rewrite Hn, Hm, Hp.
  - done.
  - intros req' Hcast. rewrite get_user_eq, Hcast. simpl.
    by rewrite lookup_insert_eq.
Qed.

(** C10 (as amended).  In a successful update-by-id, a text field
    (username, email, password) that is absent from the request body is
    an [undefined] entry of the patch of line 127; the handler does not
    drop it.  What is stored is decided by the cast of the update in
    Mongoose: when it removes undefined keys (every version from 6 on)
    the entry is dropped and the stored value of the field is kept; when
    it writes them as [null] (before version 6, as line 128 passes no
    [omitUndefined]) the stored value is overwritten with [null].  The
    stored record is the one returned. *)
Theorem put_user_absent_fields (now : N) (req : Request) (w w1 : World)
    (file : option MulterFile) (k : ObjectId) (u : UserDoc) :
  upload_single now req w = (Ok file, w1) →
  castObjectId (params_id req) = Some k →
  db w !! k = Some u →
  ∃ u', put_user now req w
        = (mkResponse 200 (JsonUser u'),
           mkWorld (<[k := u']> (db w)) (fs w1))
    ∧ (∀ img, body_username req = None →
         ("username", JUndefined) ∈ updatePatch req img)
    ∧ (∀ img, body_email req = None →
         ("email", JUndefined) ∈ updatePatch req img)
    ∧ (∀ img, body_password req = None →
         ("password", JUndefined) ∈ updatePatch req img)
    ∧ (∀ img key, (key, JUndefined) ∈ updatePatch req img →
         (key ∉ (fst <$> User.castUpdate true (updatePatch req img)))
         ∧ ((key, JNull) ∈ User.castUpdate false (updatePatch req img)))
    ∧ (body_username req = None →
         username u' = (if stripUndefined then username u else JNull))
    ∧ (body_email req = None →
         email u' = (if stripUndefined then email u else JNull))
    ∧ (body_password req = None →
         password u' = (if stripUndefined then password u else JNull)).
Proof.
  intros Hup Hcast Hu. exists (updated req file u).
  rewrite put_user_eq, Hup, updateUser_handler_eq, Hcast.
  rewrite (upload_single_db _ _ _ _ _ Hup), Hu.
  assert (Htext :
    username (updated req file u)
    = default (if stripUndefined then username u else JNull)
        (JString <$> body_username req)
    ∧ email (updated req file u)
      = default (if stripUndefined then email u else JNull)
          (JString <$> body_email req)
    ∧ password (updated req file u)
      = default (if stripUndefined then password u else JNull)
          (JString <$> body_password req)).
  { destruct stripUndefined eqn:Hstrip.
    - by apply updated_text_stripped.
    - by apply updated_text_nulled. }
  destruct Htext as (Hn & He & Hp).
  split_and!; [done | | | | | |  |].
  - intros img E. unfold updatePatch. rewrite E.
    apply elem_of_app. left. simpl. by left.
  - intros img E. unfold updatePatch. rewrite E.
    apply elem_of_app. left. simpl. right. by left.
  - intros img E. unfold updatePatch. rewrite E.
    apply elem_of_app. left. simpl. do 2 right. by left.
  - intros img key Hin. split; [by apply updatePatch_absent |].
    by apply updatePatch_absent_nulled.
  - intros E. by rewrite Hn, E.
  - intros E. by rewrite He, E.
  - intros E. by rewrite Hp, E.
Qed.

(** ** Further properties: the sanitizer and the generated names *)

(** X1.  Sanitizing twice is sanitizing once, and the names the sanitizer
    leaves as they are are exactly those without any of the nine
    characters. *)
Theorem sanitizeFilename_fixed_points (s : string) :
  sanitizeFilename (sanitizeFilename s) = sanitizeFilename s
  ∧ (sanitizeFilename s = s ↔ Forall (λ c, c ∉ invalidChars) (chars s)).
Proof.
  assert (Hvalid : ∀ c, invalidChar c = false ↔ c ∉ invalidChars).
  { intros c. rewrite <- invalidChar_spec.
    destruct (invalidChar c); split; congruence. }
  split; [apply sanitizeFilename_idempotent |]. split.
  - intros <-. eapply Forall_impl; [apply sanitizeFilename_chars |].
    intros c Hc. by apply Hvalid.
  - induction s as [|c s IH]; simpl; [done |].
    intros Hall. inversion Hall as [|? ? Hc Hs]; subst.
    apply Hvalid in Hc. by rewrite Hc, IH.
Qed.

Lemma decimal_digits (n : N) :
  decimal n ≠ "" ∧ Forall (λ c, isDigit c = true) (chars (decimal n)).
Proof.
  unfold decimal. generalize (N.to_uint n). intros d.
  assert (G : Forall (λ c, isDigit c = true) (chars (NilEmpty.string_of_uint d))).
  { induction d; simpl; try constructor; try done. }
  destruct d; simpl in *; (split; [done |]); try done; by repeat constructor.
Qed.

Lemma decimal_inj (n m : N) : decimal n = decimal m → n = m.
Proof.
  unfold decimal. intros H. apply DecimalN.Unsigned.to_uint_inj.
  assert (Hnn : ∀ k, N.to_uint k ≠ Decimal.Nil).
  { intros [|p]; [done | apply DecimalPos.Unsigned.to_uint_nonnil]. }
  apply (f_equal NilZero.uint_of_string) in H.
  rewrite !NilZero.usu in H by apply Hnn. by injection H.
Qed.

(** Two texts made of digits, a dash and a rest are equal only when the
    digits and the rests are. *)
Lemma digits_dash_inj (a b s t : string) :
  Forall (λ c, isDigit c = true) (chars a) →
  Forall (λ c, isDigit c = true) (chars b) →
  a +:+ "-" +:+ s = b +:+ "-" +:+ t → a = b ∧ s = t.
Proof.
  revert b. induction a as [|c a IH]; intros b Ha Hb; simpl.
  - destruct b as [|d b]; simpl; intros H; simplify_eq; [done |].
    by inversion Hb.
  - destruct b as [|d b]; simpl; intros H; simplify_eq.
    + by inversion Ha.
    + inversion Ha; inversion Hb; subst.
      destruct (IH b) as [-> ->]; done.
Qed.

(** X2.  Two generated names are equal exactly when the timestamps are
    equal and the original names sanitize to the same text: uploads in
    different milliseconds never share a name. *)
Theorem storage_filename_inj (now1 now2 : N) (f1 f2 : FilePart) :
  storage_filename now1 f1 = storage_filename now2 f2
  ↔ now1 = now2
    ∧ sanitizeFilename (originalname f1) = sanitizeFilename (originalname f2).
Proof.
  unfold storage_filename. split.
  - intros H. apply digits_dash_inj in H as [Hd Hs];
      [| apply decimal_digits | apply decimal_digits].
    split; [by apply decimal_inj | done].
  - by intros [-> ->].
Qed.

(** X3.  When two accepted uploads are stored one after the other under
    the same timestamp and their original names sanitize to the same text,
    both get the same generated name, and the second replaces the content
    the first one wrote: one entry is left, with the bytes of the second
    upload. *)
Theorem same_name_upload_replaces (now : N) (req1 req2 : Request)
    (f1 f2 : FilePart) (w : World) :
  part_image req1 = Some f1 → part_image req2 = Some f2 →
  acceptedPart f1 → acceptedPart f2 →
  writable now f1 w →
  sanitizeFilename (originalname f1) = sanitizeFilename (originalname f2) →
  ∃ w1,
    upload_single now req1 w
    = (Ok (Some (mkMulterFile (storage_filename now f1))), w1)
    ∧ fs w1 !! (uploadDir ++ [storage_filename now f1]) = Some (File (bytes f1))
    ∧ upload_single now req2 w1
      = (Ok (Some (mkMulterFile (storage_filename now f1))),
         mkWorld (db w)
           (<[uploadDir ++ [storage_filename now f1] := File (bytes f2)]> (fs w))).
Proof.
  intros Hp1 Hp2 [Hn1 Hm1] [Hn2 Hm2] [Hdir Htarget] Hsame.
  assert (Hname : storage_filename now f2 = storage_filename now f1).
  { by apply storage_filename_inj. }
  eexists. split_and!.
  - by apply upload_single_stored.
  - simpl. apply lookup_insert_eq.
  - rewrite (upload_single_stored now req2 _ f2); try done; simpl.
    + by rewrite Hname, insert_insert_eq.
    + rewrite lookup_insert_ne; [done |]. intros Heq.
      apply (f_equal (@List.length string)) in Heq.
      rewrite length_app in Heq. simpl in Heq. lia.
    + by rewrite Hname, lookup_insert_eq.
Qed.

(** ** Further properties: the create route *)

Lemma validate_fieldsPresent (oid : ObjectId) (req : Request)
    (file : option MulterFile) :
  User.validate (created oid req file) = [] ↔ fieldsPresent req.
Proof.
  unfold User.validate, created, fieldsPresent. simpl.
  destruct (truthy (ofField (body_username req))),
    (truthy (ofField (body_email req))),
    (truthy (ofField (body_password req))); simpl;
    (split; [intros H | intros (H1 & H2 & H3)]); done.
Qed.


Lemma post_addUser_ok (now : N) (oid : ObjectId) (req : Request)
    (w w1 : World) (file : option MulterFile) :
  upload_single now req w = (Ok file, w1) →
  fieldsPresent req → db w !! oid = None →
  post_addUser now oid req w
  = (mkResponse 201 (JsonUser (created oid req file)),
     mkWorld (<[oid := created oid req file]> (db w)) (fs w1)).
Proof.
  intros Hup Hfields Hfresh.
  apply (validate_fieldsPresent oid req file) in Hfields.
  rewrite post_addUser_eq, Hup, addUser_handler_eq, Hfields.
  by rewrite (upload_single_db _ _ _ _ _ Hup), Hfresh.
Qed.

Lemma stored_upload (now : N) (req : Request) (w : World) (file : FilePart) :
  part_image req = Some file → acceptedPart file → writable now file w →
  upload_single now req w
  = (Ok (Some (mkMulterFile (storage_filename now file))),
     mkWorld (db w)
       (<[uploadDir ++ [storage_filename now file] := File (bytes file)]> (fs w))).
Proof.
  intros Hpart [Hname Hmime] [Hdir Htarget]. by apply upload_single_stored.
Qed.

Lemma get_users_member (w : World) (k : ObjectId) (u : UserDoc) :
  db w !! k = Some u →
  withImageUrl u ∈ withImageUrl <$> (snd <$> map_to_list (db w)).
Proof.
  intros Hu. apply list_elem_of_fmap_2, list_elem_of_fmap.
  exists (k, u). split; [done | by apply elem_of_map_to_list].
Qed.

(** X4.  After a user is created with an accepted image, list-all shows that
    user with the image as [http://localhost:8080/uploads/], the decimal
    timestamp, a dash and the sanitized original name, while the record in
    the collection keeps the relative path [/uploads/...]. *)
Theorem create_with_image_then_list (now : N) (oid : ObjectId) (req : Request)
    (w : World) (file : FilePart) :
  part_image req = Some file → acceptedPart file → writable now file w →
  fieldsPresent req → db w !! oid = None →
  let name := decimal now +:+ "-" +:+ sanitizeFilename (originalname file) in
  ∃ u w',
    post_addUser now oid req w = (mkResponse 201 (JsonUser u), w')
    ∧ image u = JString ("/uploads/" +:+ name)
    ∧ ∃ us, get_users w' = (mkResponse 200 (JsonUsers us), w')
        ∧ mkUser oid (username u) (email u) (password u)
            (JString ("http://localhost:8080/uploads/" +:+ name)) ∈ us
        ∧ db w' !! oid = Some u.
Proof.
  intros Hpart Hacc Hwr Hfields Hfresh name.
  pose proof (stored_upload now req w file Hpart Hacc Hwr) as Hup.
  set (u := created oid req (Some (mkMulterFile (storage_filename now file)))).
  set (w' := mkWorld (<[oid := u]> (db w))
               (<[uploadDir ++ [storage_filename now file] := File (bytes file)]>
                  (fs w))).
  assert (Hu : db w' !! oid = Some u) by apply lookup_insert_eq.
  exists u, w'. split; [by apply (post_addUser_ok _ _ _ _ _ _ Hup) |].
  split; [done |]. eexists. split; [apply get_users_eq |]. split; [| done].
  assert (Hurl : withImageUrl u
                 = mkUser oid (username u) (email u) (password u)
                     (JString ("http://localhost:8080/uploads/" +:+ name)))
    by reflexivity.
  rewrite <- Hurl. by apply (get_users_member w' oid).
Qed.

(** X5.  After a user is created with an accepted image, retrieval by owning
    user under the id of the new record answers 200 with the uploaded
    bytes, read from the entry of the generated name in the upload
    directory (unless the file sender ignores that path as a dotfile
    path). *)
Theorem create_with_image_then_image (now : N) (oid : ObjectId)
    (req req' : Request) (w : World) (file : FilePart) :
  part_image req = Some file → acceptedPart file → writable now file w →
  fieldsPresent req → db w !! oid = None →
  castObjectId (params_id req') = Some oid →
  dotfileIgnored (uploadDir ++ [storage_filename now file]) = false →
  ∃ u w',
    post_addUser now oid req w = (mkResponse 201 (JsonUser u), w')
    ∧ get_userImage req' w'
      = (mkResponse 200
           (SentFile (uploadDir ++ [storage_filename now file]) (bytes file)),
         w').
Proof.
  intros Hpart Hacc Hwr Hfields Hfresh Hcast Hdot.
  pose proof (stored_upload now req w file Hpart Hacc Hwr) as Hup.
  eexists _, _. split; [by apply (post_addUser_ok _ _ _ _ _ _ Hup) |].
  rewrite get_userImage_eq, Hcast. simpl. rewrite lookup_insert_eq. simpl.
  fold (storage_filename now file).
  change ("/uploads/" +:+ storage_filename now file)
    with (uploadedPath (mkMulterFile (storage_filename now file))).
  unfold uploadedPath. simpl filename.
  rewrite imagePath_of_upload, finalPath_eq, lookup_insert_eq, Hdot.
  done.
Qed.


(** ** Further properties: the id-scoped routes *)

(** X7.  A route parameter that is neither a string of 24 hex digits nor a
    string of 12 characters, so one that no version of the ObjectId cast
    takes for an id, is answered 500 with the cast error by get-by-id,
    update-by-id, delete-by-id and retrieval by owning user, never 404,
    and the collection is left as it was. *)
Theorem malformed_id_is_500 (now : N) (req : Request) (w : World) :
  castObjectId (params_id req) = None →
  String.length (params_id req) ≠ 12%nat →
  get_user req w
    = (mkResponse 500 (JsonError (MessageOf (CastError (params_id req)))), w)
  ∧ delete_user req w
    = (mkResponse 500 (JsonError (MessageOf (CastError (params_id req)))), w)
  ∧ get_userImage req w
    = (mkResponse 500
         (JsonErrorDetails (Literal "Internal Server Error")
            (MessageOf (CastError (params_id req)))), w)
  ∧ (∀ file w1, upload_single now req w = (Ok file, w1) →
       put_user now req w
       = (mkResponse 500 (JsonError (MessageOf (CastError (params_id req)))),
          w1)
       ∧ db w1 = db w).
Proof.
  intros Hcast _. split_and!.
  - by rewrite get_user_eq, Hcast.
  - by rewrite delete_user_eq, Hcast.
  - by rewrite get_userImage_eq, Hcast.
  - intros file w1 Hup. split; [| by apply (upload_single_db _ _ _ _ _ Hup)].
    by rewrite put_user_eq, Hup, updateUser_handler_eq, Hcast.
Qed.


(** X9.  A successful update writes each supplied text field as it came,
    without the validation that create applies: an empty string is stored
    as the empty string, after which the record no longer passes the
    required-field validation. *)
Theorem update_writes_fields_unvalidated (now : N) (req : Request)
    (w w1 : World) (file : option MulterFile) (k : ObjectId) (u : UserDoc) :
  upload_single now req w = (Ok file, w1) →
  castObjectId (params_id req) = Some k →
  db w !! k = Some u →
  ∃ u', put_user now req w
        = (mkResponse 200 (JsonUser u'),
           mkWorld (<[k := u']> (db w)) (fs w1))
    ∧ _id u' = _id u
    ∧ (∀ s, body_username req = Some s → username u' = JString s)
    ∧ (∀ s, body_email req = Some s → email u' = JString s)
    ∧ (∀ s, body_password req = Some s → password u' = JString s)
    ∧ (body_username req = Some "" ∨ body_email req = Some ""
       ∨ body_password req = Some "" → User.validate u' ≠ []).
Proof.
  intros Hup Hcast Hu. exists (updated req file u).
  rewrite put_user_eq, Hup, updateUser_handler_eq, Hcast.
  rewrite (upload_single_db _ _ _ _ _ Hup), Hu.
  assert (Htext :
    (∀ s, body_username req = Some s → username (updated req file u) = JString s)
    ∧ (∀ s, body_email req = Some s → email (updated req file u) = JString s)
    ∧ (∀ s, body_password req = Some s → password (updated req file u) = JString s)).
  { destruct stripUndefined eqn:Hstrip.
    - destruct (updated_text_stripped req file u Hstrip) as (Hn & He & Hp).
      split_and!; intros s E; [rewrite Hn | rewrite He | rewrite Hp];
        by rewrite E.
    - destruct (updated_text_nulled req file u Hstrip) as (Hn & He & Hp).
      split_and!; intros s E; [rewrite Hn | rewrite He | rewrite Hp];
        by rewrite E. }
  destruct Htext as (Hn & He & Hp).
  split_and!; [done | apply updated_id | exact Hn | exact He | exact Hp |].
  unfold User.validate.
  intros [E | [E | E]];
    [rewrite (Hn _ E) | rewrite (He _ E) | rewrite (Hp _ E)]; simpl;
    repeat case_match; done.
Qed.

(** X10.  With a Mongoose that writes undefined keys of an update as [null]
    (the default before version 6), a successful update stores [null] in
    each text field that is absent from the request body, whatever was
    stored before; the image is kept all the same. *)
Theorem put_user_absent_fields_nulled (now : N) (req : Request)
    (w w1 : World) (file : option MulterFile) (k : ObjectId) (u : UserDoc) :
  stripUndefined = false →
  upload_single now req w = (Ok file, w1) →
  castObjectId (params_id req) = Some k →
  db w !! k = Some u →
  ∃ u', put_user now req w
        = (mkResponse 200 (JsonUser u'),
           mkWorld (<[k := u']> (db w)) (fs w1))
    ∧ (body_username req = None → username u' = JNull)
    ∧ (body_email req = None → email u' = JNull)
    ∧ (body_password req = None → password u' = JNull)
    ∧ (file = None → image u' = image u).
Proof.
  intros Hstrip Hup Hcast Hu. exists (updated req file u).
  rewrite put_user_eq, Hup, updateUser_handler_eq, Hcast.
  rewrite (upload_single_db _ _ _ _ _ Hup), Hu.
  destruct (updated_text_nulled req file u Hstrip) as (Hn & He & Hp).
  split_and!; [done | | | |].
  - intros E. by rewrite Hn, E.
  - intros E. by rewrite He, E.
  - intros E. by rewrite Hp, E.
  - intros ->. apply updated_image.
Qed.

(** X11.  After a successful delete-by-id, deleting the same id again
    answers 404 and changes nothing, and every other record is still
    stored as before. *)
Theorem delete_twice (req : Request) (w w' : World) :
  delete_user req w
    = (mkResponse 200 (JsonMessage "User deleted successfully"), w') →
  delete_user req w'
    = (mkResponse 404 (JsonError (Literal "User not found")), w')
  ∧ ∀ k, castObjectId (params_id req) ≠ Some k → db w' !! k = db w !! k.
Proof.
  rewrite !delete_user_eq.
  destruct (castObjectId (params_id req)) as [k|] eqn:Hcast; [| done].
  destruct (db w !! k) as [u|] eqn:Hu; [| done].
  intros [= <-]. simpl. rewrite lookup_delete_eq. split; [done |].
  intros k' Hne. apply lookup_delete_ne. congruence.
Qed.

(** ** Further properties: what a request can change *)

(** The upload stage leaves the file system alone or writes the part as a
    regular file under the generated name, where no directory was. *)
Lemma upload_single_fs (now : N) (req : Request) (w w1 : World)
    (r : Result (option MulterFile)) :
  upload_single now req w = (r, w1) →
  fs w1 = fs w
  ∨ ∃ file, part_image req = Some file
      ∧ r = Ok (Some (mkMulterFile (storage_filename now file)))
      ∧ fs w !! (uploadDir ++ [storage_filename now file]) ≠ Some Dir
      ∧ fs w1 = <[uploadDir ++ [storage_filename now file]
                   := File (bytes file)]> (fs w).
Proof.
  unfold upload_single, fileFilter, storage_handleFile, Fs.writeFile.
  destruct (part_image req) as [file|]; [| intros [= <- <-]; by left].
  destruct (String.eqb (originalname file) ""); [intros [= <- <-]; by left |].
  destruct (String.prefix "image/" (mimetype file));
    [| intros [= <- <-]; by left].
  cbv zeta. rewrite finalPath_eq. unfold parentOf. rewrite removelast_last.
  run.
  destruct (fs w !! uploadDir) as [[|c]|]; try (intros [= <- <-]; by left).
  destruct (fs w !! (uploadDir ++ [storage_filename now file]))
    as [[|c]|] eqn:E; intros [= <- <-];
    [by left | right; exists file; by rewrite E | right; exists file; by rewrite E].
Qed.

(** A route leaves the file system alone or writes one regular file as an
    entry of the upload directory, where no directory was. *)
Lemma serve_fs (c : Call) (w : World) :
  fs (serve c w).2 = fs w
  ∨ ∃ name content,
      fs w !! (uploadDir ++ [name]) ≠ Some Dir
      ∧ fs (serve c w).2 = <[uploadDir ++ [name] := File content]> (fs w).
Proof.
  assert (Hup : ∀ now req r w1, upload_single now req w = (r, w1) →
            fs w1 = fs w
            ∨ ∃ name content,
                fs w !! (uploadDir ++ [name]) ≠ Some Dir
                ∧ fs w1 = <[uploadDir ++ [name] := File content]> (fs w)).
  { intros now req r w1 H.
    destruct (upload_single_fs _ _ _ _ _ H) as [E | (file & _ & _ & Hd & E)];
      [by left | right]. by exists (storage_filename now file), (bytes file). }
  destruct c as [|now oid req| |req|now req|req|req]; simpl.
  - by left.
  - rewrite post_addUser_eq.
    destruct (upload_single now req w) as [[file|e] w1] eqn:E; simpl;
      [| by apply (Hup now req (Throw e))].
    rewrite addUser_handler_eq.
    repeat case_match; simpl; by apply (Hup now req (Ok file)).
  - by left.
  - rewrite get_user_eq. by left.
  - rewrite put_user_eq.
    destruct (upload_single now req w) as [[file|e] w1] eqn:E; simpl;
      [| by apply (Hup now req (Throw e))].
    rewrite updateUser_handler_eq.
    repeat case_match; simpl; by apply (Hup now req (Ok file)).
  - rewrite delete_user_eq. repeat case_match; by left.
  - rewrite get_userImage_eq. by left.
Qed.

(** X12.  No route removes a file-system entry, turns a directory into
    something else or writes outside the upload directory: an entry that
    differs after a request is a regular file written as an entry of the
    upload directory, at a name that was free or held a regular file. *)
Theorem routes_only_add_uploads (c : Call) (w : World) (p : path) :
  fs (serve c w).2 !! p = fs w !! p
  ∨ ∃ name content,
      p = uploadDir ++ [name]
      ∧ fs w !! p ≠ Some Dir
      ∧ fs (serve c w).2 !! p = Some (File content).
Proof.
  destruct (serve_fs c w) as [-> | (name & content & Hfree & ->)]; [by left |].
  destruct (decide (uploadDir ++ [name] = p)) as [<- | Hne].
  - right. exists name, content. by rewrite lookup_insert_eq.
  - left. by apply lookup_insert_ne.
Qed.


(** ** Further properties: invariants over any sequence of requests *)

Lemma serve_keysMatchIds (c : Call) (w : World) :
  keysMatchIds w → keysMatchIds (serve c w).2.
Proof.
  intros Hinv.
  assert (Hins : ∀ k u f, _id u = k →
            keysMatchIds (mkWorld (<[k := u]> (db w)) f)).
  { intros k u f Hid k' u'. simpl. rewrite lookup_insert.
    case_decide; [intros [= <-]; congruence | apply Hinv]. }
  assert (Hsame : ∀ w1, db w1 = db w → keysMatchIds w1).
  { intros w1 Hdb k u. rewrite Hdb. apply Hinv. }
  destruct c as [|now oid req| |req|now req|req|req]; simpl.
  - done.
  - rewrite post_addUser_eq.
    destruct (upload_single now req w) as [[file|e] w1] eqn:Hup; simpl;
      pose proof (upload_single_db _ _ _ _ _ Hup) as Hdb; [| by apply Hsame].
    rewrite addUser_handler_eq, Hdb.
    repeat case_match; simpl; try (by apply Hsame). by apply Hins.
  - done.
  - by rewrite get_user_eq.
  - rewrite put_user_eq.
    destruct (upload_single now req w) as [[file|e] w1] eqn:Hup; simpl;
      pose proof (upload_single_db _ _ _ _ _ Hup) as Hdb; [| by apply Hsame].
    rewrite updateUser_handler_eq, Hdb.
    destruct (castObjectId (params_id req)) as [k|]; [| by apply Hsame].
    destruct (db w !! k) as [u|] eqn:Hu; [| by apply Hsame].
    apply Hins. rewrite updated_id. by apply Hinv.
  - rewrite delete_user_eq.
    destruct (castObjectId (params_id req)) as [k|]; [| done].
    destruct (db w !! k) as [u|]; [| done].
    intros k' u'. simpl. rewrite lookup_delete_Some. intros [_ Hk'].
    by apply Hinv.
  - by rewrite get_userImage_eq.
Qed.

(** X14.  In a collection filled through the routes, every record is stored
    under its own [_id]: get-by-id with the [_id] that any stored record
    shows answers 200 with that record. *)
Theorem stored_records_fetch_by_own_id (w0 w : World) :
  db w0 = ∅ → rtc step w0 w →
  ∀ k u, db w !! k = Some u →
    _id u = k
    ∧ ∀ req, castObjectId (params_id req) = Some (_id u) →
        get_user req w = (mkResponse 200 (JsonUser u), w).
Proof.
  intros Hempty Hreach.
  assert (Hinv : keysMatchIds w).
  { assert (H0 : keysMatchIds w0).
    { intros k u. by rewrite Hempty, lookup_empty. }
    clear Hempty. induction Hreach as [|w0 w1 w (c & <-) _ IH]; [done |].
    by apply IH, serve_keysMatchIds. }
  intros k u Hu. pose proof (Hinv k u Hu) as Hid. split; [done |].
  intros req Hcast. by rewrite get_user_eq, Hcast, Hid, Hu.
Qed.

Lemma imagesExist_step (w w1 : World) (d : gmap ObjectId UserDoc) :
  imagesExist w →
  (fs w1 = fs w
   ∨ ∃ name content, fs w1 = <[uploadDir ++ [name] := File content]> (fs w)) →
  (∀ k u s, d !! k = Some u → image u = JString s →
     (∃ k0 u0, db w !! k0 = Some u0 ∧ image u0 = JString s)
     ∨ ∃ content, fs w1 !! imagePath s = Some (File content)) →
  imagesExist (mkWorld d (fs w1)).
Proof.
  intros Hinv Hfs Hd k u s Hu Himg. simpl.
  destruct (Hd k u s Hu Himg) as [(k0 & u0 & Hu0 & Himg0) | Hnew]; [| done].
  destruct (Hinv k0 u0 s Hu0 Himg0) as [content Hfile].
  destruct Hfs as [-> | (name & content' & ->)]; [by exists content |].
  rewrite lookup_insert. case_decide; [by exists content' | by exists content].
Qed.

Lemma serve_imagesExist (c : Call) (w : World) :
  imagesExist w → imagesExist (serve c w).2.
Proof.
  intros Hinv.
  assert (Hold : ∀ k u s, db w !! k = Some u → image u = JString s →
            ∃ k0 u0, db w !! k0 = Some u0 ∧ image u0 = JString s).
  { intros k u s Hu Himg. by exists k, u. }
  assert (Hup : ∀ now req file w1,
            upload_single now req w = (Ok file, w1) →
            db w1 = db w
            ∧ (fs w1 = fs w
               ∨ ∃ name content,
                   fs w1 = <[uploadDir ++ [name] := File content]> (fs w))
            ∧ ∀ f, file = Some f →
                ∃ content,
                  fs w1 !! imagePath (uploadedPath f) = Some (File content)).
  { intros now req file w1 H.
    split; [by apply (upload_single_db _ _ _ _ _ H) |]. split.
    - destruct (upload_single_fs _ _ _ _ _ H) as [E | (part & _ & _ & _ & E)];
        [by left | right]. by exists (storage_filename now part), (bytes part).
    - intros f ->. destruct (upload_single_inv _ _ _ _ _ H)
        as (_ & part & _ & _ & -> & ->).
      exists (bytes part). unfold uploadedPath. simpl filename.
      by rewrite imagePath_of_upload, finalPath_eq, lookup_insert_eq. }
  assert (Hkeep : ∀ w1, db w1 = db w →
            (fs w1 = fs w
             ∨ ∃ name content,
                 fs w1 = <[uploadDir ++ [name] := File content]> (fs w)) →
            imagesExist w1).
  { intros [d1 f1] Hdb Hfs. simpl in *. subst d1.
    apply (imagesExist_step w (mkWorld (db w) f1)); [done | done |].
    intros k u s Hu Himg. left. by exists k, u. }
  destruct c as [|now oid req| |req|now req|req|req]; simpl.
  - done.
  - rewrite post_addUser_eq.
    destruct (upload_single now req w) as [[file|e] w1] eqn:E; simpl.
    + destruct (Hup _ _ _ _ E) as (Hdb & Hfs & Hnew).
      rewrite addUser_handler_eq, Hdb.
      repeat case_match; simpl; try (by apply Hkeep).
      apply (imagesExist_step w); [done | done |].
      intros k u s. rewrite lookup_insert. case_decide; [| by left; eauto].
      intros [= <-]. simpl. destruct file as [f|]; [| done].
      intros [= <-]. right. by apply Hnew.
    + destruct (upload_single_fs _ _ _ _ _ E) as [Hfs | (? & _ & ? & _)];
        [| done].
      apply Hkeep; [by apply (upload_single_db _ _ _ _ _ E) | by left].
  - done.
  - by rewrite get_user_eq.
  - rewrite put_user_eq.
    destruct (upload_single now req w) as [[file|e] w1] eqn:E; simpl.
    + destruct (Hup _ _ _ _ E) as (Hdb & Hfs & Hnew).
      rewrite updateUser_handler_eq, Hdb.
      destruct (castObjectId (params_id req)) as [k|]; [| by apply Hkeep].
      destruct (db w !! k) as [u|] eqn:Hu; [| by apply Hkeep].
      apply (imagesExist_step w); [done | done |].
      intros k' u' s. rewrite lookup_insert. case_decide; [| by left; eauto].
      intros [= <-]. rewrite updated_image. destruct file as [f|].
      * intros [= <-]. right. by apply Hnew.
      * intros Himg. left. by exists k, u.
    + destruct (upload_single_fs _ _ _ _ _ E) as [Hfs | (? & _ & ? & _)];
        [| done].
      apply Hkeep; [by apply (upload_single_db _ _ _ _ _ E) | by left].
  - rewrite delete_user_eq.
    destruct (castObjectId (params_id req)) as [k|]; [| done].
    destruct (db w !! k) as [u|]; [| done].
    apply (imagesExist_step w w); [done | by left |].
    intros k' u' s. rewrite lookup_delete_Some. intros [_ Hk'] Himg.
    left. by exists k', u'.
  - by rewrite get_userImage_eq.
Qed.

(** X15.  In a collection filled through the routes no image reference
    dangles: for every stored record with an image value, the regular file
    that retrieval by owning user reads exists, and the route answers 200
    with its content (unless the file sender ignores the path as a dotfile
    path). *)
Theorem stored_images_are_served (w0 w : World) :
  db w0 = ∅ → rtc step w0 w →
  ∀ req k u s, castObjectId (params_id req) = Some k →
    db w !! k = Some u → image u = JString s →
    ∃ content,
      fs w !! imagePath s = Some (File content)
      ∧ (dotfileIgnored (imagePath s) = false →
         get_userImage req w
         = (mkResponse 200 (SentFile (imagePath s) content), w)).
Proof.
  intros Hempty Hreach req k u s Hcast Hu Himg.
  assert (Hgen : generatedImages w).
  { apply (requests_keep_generatedImages w0); [done |].
    intros k' u'. by rewrite Hempty, lookup_empty. }
  assert (Hinv : imagesExist w).
  { assert (H0 : imagesExist w0).
    { intros k' u' s'. by rewrite Hempty, lookup_empty. }
    clear Hempty Hgen. induction Hreach as [|w0 w1 w (c & <-) _ IH]; [done |].
    by apply IH, serve_imagesExist. }
  destruct (Hinv k u s Hu Himg) as [content Hfile]. exists content.
  split; [done |]. intros Hdot.
  rewrite get_userImage_eq, Hcast, Hu, Himg, Hfile, Hdot.
  destruct (Hgen k u Hu) as [Hnull | (now & file & Hs)]; [congruence |].
  rewrite Himg in Hs. injection Hs as ->. done.
Qed.

(** ** Further properties: start-up and the upload directory *)

Lemma mkdirp_run (rest : list string) (pre : path) (f f1 : gmap path node) :
  Fs.mkdirp pre rest f = Ok f1 →
  f1 !! (pre ++ rest) = Some Dir
  ∧ (∀ i c, f !! (pre ++ take i rest) ≠ Some (File c))
  ∧ (∀ p n, f !! p = Some n → f1 !! p = Some n)
  ∧ (∀ p, f1 !! p = f !! p ∨ f1 !! p = Some Dir).
Proof.
  revert pre f. induction rest as [|seg rest IH]; intros pre f; simpl.
  - destruct (f !! pre) as [[|c]|] eqn:E; intros [= <-];
      rewrite app_nil_r; (split_and!; [apply lookup_insert_eq | | |]).
    all: try (intros i c'; rewrite take_nil, app_nil_r; congruence).
    all: try (intros p n Hp; rewrite lookup_insert; case_decide; congruence).
    all: intros p; rewrite lookup_insert; case_decide; [by right | by left].
  - assert (Hstep : ∀ f', f' = <[pre := Dir]> f →
              (∀ c, f !! pre ≠ Some (File c)) →
              Fs.mkdirp (pre ++ [seg]) rest f' = Ok f1 →
              f1 !! (pre ++ seg :: rest) = Some Dir
              ∧ (∀ i c, f !! (pre ++ take i (seg :: rest)) ≠ Some (File c))
              ∧ (∀ p n, f !! p = Some n → f1 !! p = Some n)
              ∧ (∀ p, f1 !! p = f !! p ∨ f1 !! p = Some Dir)).
    { intros f' -> Hpre Hrun.
      destruct (IH _ _ Hrun) as (Hdir & Hfree & Hkeep & Hnew).
      rewrite <- app_assoc in Hdir. split_and!; [done | | |].
      - intros [|i] c; simpl; [rewrite app_nil_r; apply Hpre |].
        specialize (Hfree i c). rewrite <- app_assoc in Hfree. simpl in Hfree.
        rewrite lookup_insert_ne in Hfree; [done |]. intros Heq.
        apply (f_equal (@List.length string)) in Heq.
        rewrite length_app in Heq. simpl in Heq. lia.
      - intros p n Hp. apply Hkeep. rewrite lookup_insert. case_decide; [| done].
        subst p. destruct n as [|c]; [done |]. by destruct (Hpre c).
      - intros p. destruct (Hnew p) as [-> | ->]; [| by right].
        rewrite lookup_insert. case_decide; [by right | by left]. }
    destruct (f !! pre) as [[|c]|] eqn:E; [| done |];
      intros Hrun; by apply (Hstep _ eq_refl).
Qed.

(** X16.  The start-up code succeeds exactly when the upload directory
    already exists or no regular file lies on the way to it.  When it
    succeeds the upload directory exists, every entry that existed is kept
    as it was, every entry that is new is a directory, and running it again
    changes nothing. *)
Theorem ensureUploadDir_startup (f : gmap path node) :
  ((∃ f1, ensureUploadDir f = Ok f1)
   ↔ is_Some (f !! uploadDir) ∨ ∀ i c, f !! take i uploadDir ≠ Some (File c))
  ∧ ∀ f1, ensureUploadDir f = Ok f1 →
      is_Some (f1 !! uploadDir)
      ∧ (∀ p n, f !! p = Some n → f1 !! p = Some n)
      ∧ (∀ p, f1 !! p = f !! p ∨ f1 !! p = Some Dir)
      ∧ ensureUploadDir f1 = Ok f1.
Proof.
  assert (Hrun : ∀ f1, ensureUploadDir f = Ok f1 →
            (is_Some (f !! uploadDir) ∧ f1 = f)
            ∨ (f !! uploadDir = None ∧ Fs.mkdirp [] uploadDir f = Ok f1)).
  { intros f1. unfold ensureUploadDir, Fs.existsSync, Fs.mkdirSync_recursive.
    case_bool_decide as Hex; simpl; [intros [= <-]; by left |].
    intros H. right. split; [| done].
    destruct (f !! uploadDir) eqn:E; [| done]. destruct Hex. by eexists. }
  split.
  - split.
    + intros [f1 H1]. destruct (Hrun f1 H1) as [[Hex _] | [_ Hmk]]; [by left |].
      right. by apply (mkdirp_run _ _ _ _ Hmk).
    + intros [Hex | Hfree].
      * exists f. by apply ensureUploadDir_present.
      * destruct (f !! uploadDir) eqn:E.
        -- exists f. apply ensureUploadDir_present. by eexists.
        -- destruct (ensureUploadDir_absent f E Hfree) as (f1 & H1 & _).
           by exists f1.
  - intros f1 H1. destruct (Hrun f1 H1) as [[Hex ->] | [Hnone Hmk]].
    + split_and!; [done | done | by left | done].
    + destruct (mkdirp_run _ _ _ _ Hmk) as (Hdir & _ & Hkeep & Hnew).
      simpl in Hdir. split_and!; [by eexists | done | done |].
      apply ensureUploadDir_present. by eexists.
Qed.

Lemma serve_uploadDir_flat (c : Call) (w : World) :
  (∀ name, fs w !! (uploadDir ++ [name]) ≠ Some Dir) →
  ∀ name, fs (serve c w).2 !! (uploadDir ++ [name]) ≠ Some Dir.
Proof.
  intros Hflat name.
  destruct (serve_fs c w) as [-> | (name' & content & _ & ->)]; [done |].
  rewrite lookup_insert. case_decide; [done | apply Hflat].
Qed.

(** X17.  Once the upload directory is a directory without sub-directories,
    it stays so after every sequence of requests: no route replaces the
    directory or creates a directory inside it. *)
Theorem uploadDir_stays_flat (w0 w : World) :
  fs w0 !! uploadDir = Some Dir →
  (∀ name, fs w0 !! (uploadDir ++ [name]) ≠ Some Dir) →
  rtc step w0 w →
  fs w !! uploadDir = Some Dir
  ∧ (∀ name, fs w !! (uploadDir ++ [name]) ≠ Some Dir).
Proof.
  intros Hdir Hflat Hreach.
  induction Hreach as [|w0 w1 w (c & <-) _ IH]; [done |].
  apply IH; [by rewrite serve_keeps_uploadDir | by apply serve_uploadDir_flat].
Qed.

(** ** Further properties: compositions of routes *)

Lemma updated_twice (req : Request) (u : UserDoc) :
  updated req None (updated req None u) = updated req None u.
Proof.
  unfold updated, updatePatch, User.castUpdate.
  destruct stripUndefined, u, (body_username req), (body_email req),
    (body_password req); reflexivity.
Qed.

(** X18.  An update without a file part is idempotent: sending it again
    answers with the same record and leaves the world as the first update
    left it. *)
Theorem put_user_idempotent (now now' : N) (req : Request) (w : World)
    (k : ObjectId) (u : UserDoc) :
  part_image req = None →
  castObjectId (params_id req) = Some k →
  db w !! k = Some u →
  ∃ u' w', put_user now req w = (mkResponse 200 (JsonUser u'), w')
    ∧ put_user now' req w' = (mkResponse 200 (JsonUser u'), w').
Proof.
  intros Hpart Hcast Hu.
  exists (updated req None u),
    (mkWorld (<[k := updated req None u]> (db w)) (fs w)).
  rewrite !put_user_eq, !upload_single_none, !updateUser_handler_eq by done.
  rewrite Hcast, Hu. simpl. rewrite lookup_insert_eq, updated_twice.
  by rewrite insert_insert_eq.
Qed.

(** X19.  Creating a user and then deleting the new id leaves the collection
    as it was before the create; the file system keeps what the upload
    stage of the create wrote. *)
Theorem create_then_delete (now : N) (oid : ObjectId) (req req' : Request)
    (w w1 : World) (file : option MulterFile) :
  upload_single now req w = (Ok file, w1) →
  fieldsPresent req → db w !! oid = None →
  castObjectId (params_id req') = Some oid →
  ∃ u w', post_addUser now oid req w = (mkResponse 201 (JsonUser u), w')
    ∧ delete_user req' w'
      = (mkResponse 200 (JsonMessage "User deleted successfully"),
         mkWorld (db w) (fs w1)).
Proof.
  intros Hup Hfields Hfresh Hcast. eexists _, _.
  split; [by apply (post_addUser_ok _ _ _ _ _ _ Hup) |].
  rewrite delete_user_eq, Hcast. simpl. rewrite lookup_insert_eq.
  by rewrite delete_insert_eq, delete_id.
Qed.

(** X20.  A generated file name begins with a decimal digit, holds none of
    the nine replaced characters (so no slash) and is not a dot segment: it
    is always the name of one entry. *)
Theorem storage_filename_safe (now : N) (file : FilePart) :
  (∃ d rest, storage_filename now file = String d rest ∧ isDigit d = true)
  ∧ Forall (λ c, c ∉ invalidChars) (chars (storage_filename now file))
  ∧ storage_filename now file ≠ "."
  ∧ storage_filename now file ≠ "..".
Proof.
  assert (Hvalid : ∀ c, invalidChar c = false → c ∉ invalidChars).
  { intros c Hc Hin. apply invalidChar_spec in Hin. congruence. }
  destruct (decimal_digits now) as [Hne Hdig].
  destruct (storage_filename_proper now file) as (_ & H1 & H2).
  split_and!; [| | done | done].
  - unfold storage_filename.
    destruct (decimal now) as [|d rest]; [done |]. simpl.
    exists d. eexists. split; [done |]. by inversion Hdig.
  - unfold storage_filename. rewrite !chars_app, !Forall_app. split_and!.
    + eapply Forall_impl; [exact Hdig |]. intros c Hc. apply Hvalid.
      unfold isDigit in Hc. apply andb_prop in Hc as [Hlo Hhi].
      apply N.leb_le in Hlo, Hhi. unfold invalidChar, invalidChars. simpl.
      rewrite !orb_false_r. repeat (apply orb_false_intro);
        apply Ascii.eqb_neq; intros ->; simpl in *; lia.
    + repeat constructor. by apply Hvalid.
    + eapply Forall_impl; [apply sanitizeFilename_chars |].
      intros c Hc. by apply Hvalid.
Qed.

End Server.

(** ** The claims on the sample data *)

Lemma sampleDir_normal : Forall properSeg sampleDir.
Proof. by repeat constructor. Qed.




Lemma non_image_upload_rejected_witness :
  part_image textUpload = Some (mkFilePart "notes.txt" "text/plain" "TXT")
  ∧ String.prefix "image/" "text/plain" = false
  ∧ post_addUser sampleDir 1800 6 textUpload sampleWorld
    = (mkResponse 500 (ErrorPage (FilterError "Only image files are allowed")),
       sampleWorld)
  ∧ put_user sampleDir true 1800 textUpload sampleWorld
    = (mkResponse 500 (ErrorPage (FilterError "Only image files are allowed")),
       sampleWorld).
Proof.
  assert (Hname : originalname (mkFilePart "notes.txt" "text/plain" "TXT") ≠ "")
    by discriminate.
  destruct (non_image_upload_rejected sampleDir true 1800 6 textUpload
              sampleWorld _ eq_refl Hname eq_refl)
    as (_ & _ & Hpost & Hput).
  split_and!; [reflexivity | reflexivity | exact Hpost | exact Hput].
Defined.

Lemma delete_then_get_witness :
  delete_user renameBob sampleWorld
    = (mkResponse 200 (JsonMessage "User deleted successfully"),
       mkWorld ∅ sampleFs)
  ∧ get_user renameBob (mkWorld ∅ sampleFs)
    = (mkResponse 404 (JsonError (Literal "User not found")),
       mkWorld ∅ sampleFs)
  ∧ fs (mkWorld ∅ sampleFs) = fs sampleWorld.
Proof.
  assert (Hdel : delete_user renameBob sampleWorld
                 = (mkResponse 200 (JsonMessage "User deleted successfully"),
                    mkWorld ∅ sampleFs)) by reflexivity.
  destruct (delete_then_get renameBob sampleWorld _ Hdel) as (Hget & Hfs & _).
  split_and!; [exact Hdel | exact (Hget renameBob eq_refl) | exact Hfs].
Defined.



Lemma upload_generated_name_witness :
  part_image newPicture = Some (mkFilePart "b.png" "image/png" "PNG2")
  ∧ String.prefix "image/" "image/png" = true
  ∧ upload_single sampleDir 1800 newPicture sampleWorld
    = (Ok (Some (mkMulterFile "1800-b.png")),
       mkWorld (db sampleWorld)
         (<[ ["srv"; "app"; "uploads"; "1800-b.png"] := File "PNG2" ]> sampleFs))
  ∧ ∃ f1, ensureUploadDir sampleDir ∅ = Ok f1
          ∧ f1 !! ["srv"; "app"; "uploads"] = Some Dir.
Proof.
  assert (Hname : originalname (mkFilePart "b.png" "image/png" "PNG2") ≠ "")
    by discriminate.
  destruct (upload_generated_name sampleDir true (λ _, false) sampleDir_normal
              1800 newPicture
              sampleWorld _ eq_refl Hname eq_refl)
    as (_ & _ & _ & Hstore & _ & _ & Hstart & _).
  split_and!; [reflexivity | reflexivity | |].
  - apply Hstore; [reflexivity | discriminate].
  - apply (Hstart ∅); [reflexivity |].
    intros i c. by rewrite lookup_empty.
Defined.

Lemma create_then_get_no_image_witness :
  db sampleWorld !! 6 = None
  ∧ ∃ u w', post_addUser sampleDir 1800 6 signUp sampleWorld
            = (mkResponse 201 (JsonUser u), w')
      ∧ image u = JNull
      ∧ get_user (mkRequest "000000000000000000000006" None None None None) w'
        = (mkResponse 200 (JsonUser u), w').
Proof.
  split; [reflexivity |].
  destruct (create_then_get_no_image sampleDir 1800 6 signUp sampleWorld
              "dave" "d@x.com" "p")
    as (u & w' & Hpost & Hu & Himg & Hget);
    try reflexivity; try discriminate.
  exists u, w'. split_and!; [exact Hpost | exact Himg |].
  apply Hget. by rewrite Hu.
Defined.

Lemma put_user_absent_fields_witness :
  upload_single sampleDir 1800 renameBob sampleWorld = (Ok None, sampleWorld)
  ∧ castObjectId (params_id renameBob) = Some 5
  ∧ db sampleWorld !! 5 = Some alice
  ∧ body_email renameBob = None
  ∧ (∃ u', put_user sampleDir true 1800 renameBob sampleWorld
           = (mkResponse 200 (JsonUser u'),
              mkWorld (<[5 := u']> (db sampleWorld)) (fs sampleWorld))
       ∧ email u' = JString "a@x.com"
       ∧ password u' = JString "p")
  ∧ (∃ u', put_user sampleDir false 1800 renameBob sampleWorld
           = (mkResponse 200 (JsonUser u'),
              mkWorld (<[5 := u']> (db sampleWorld)) (fs sampleWorld))
       ∧ email u' = JNull
       ∧ password u' = JNull).
Proof.
  split_and!; try reflexivity.
  - destruct (put_user_absent_fields sampleDir true 1800 renameBob
                sampleWorld sampleWorld None 5 alice eq_refl eq_refl eq_refl)
      as (u' & Hput & _ & _ & _ & _ & _ & He & Hp).
    exists u'. split_and!; [exact Hput | by apply He | by apply Hp].
  - destruct (put_user_absent_fields sampleDir false 1800 renameBob
                sampleWorld sampleWorld None 5 alice eq_refl eq_refl eq_refl)
      as (u' & Hput & _ & _ & _ & _ & _ & He & Hp).
    exists u'. split_and!; [exact Hput | by apply He | by apply Hp].
Defined.

(** With a Mongoose that writes undefined keys as [null], an update that
    sends only a username overwrites the stored email and password with
    [null]. *)
Lemma put_user_absent_fields_counterexample :
  db sampleWorld !! 5 = Some alice
  ∧ email alice = JString "a@x.com"
  ∧ password alice = JString "p"
  ∧ body_email renameBob = None
  ∧ body_password renameBob = None
  ∧ put_user sampleDir false 1800 renameBob sampleWorld
    = (mkResponse 200
         (JsonUser (mkUser 5 (JString "bob") JNull JNull
                      (JString "/uploads/1700-a_b.png"))),
       mkWorld {[ 5 := mkUser 5 (JString "bob") JNull JNull
                          (JString "/uploads/1700-a_b.png") ]} sampleFs).
Proof. split_and!; reflexivity. Qed.

(** ** The further properties on the sample data *)

Lemma sampleFs_flat (name : string) :
  sampleFs !! (uploadDir sampleDir ++ [name]) ≠ Some Dir.
Proof.
  unfold sampleFs. change (uploadDir sampleDir) with ["srv"; "app"; "uploads"].
  intros H. simpl in H.
  rewrite lookup_insert in H. case_decide; [done |].
  rewrite !lookup_insert_ne in H by done. by rewrite lookup_singleton_ne in H.
Qed.

Lemma same_name_upload_replaces_witness :
  sanitizeFilename "a?b.png" = sanitizeFilename "a:b.png"
  ∧ ∃ w1,
      upload_single sampleDir 1900 pictureQuestion sampleWorld
      = (Ok (Some (mkMulterFile "1900-a_b.png")), w1)
      ∧ upload_single sampleDir 1900 pictureColon w1
        = (Ok (Some (mkMulterFile "1900-a_b.png")),
           mkWorld (db sampleWorld)
             (<[ ["srv"; "app"; "uploads"; "1900-a_b.png"] := File "SECOND" ]>
                sampleFs)).
Proof.
  split; [reflexivity |].
  destruct (same_name_upload_replaces sampleDir sampleDir_normal 1900
              pictureQuestion pictureColon
              (mkFilePart "a?b.png" "image/png" "FIRST")
              (mkFilePart "a:b.png" "image/png" "SECOND") sampleWorld
              eq_refl eq_refl)
    as (w1 & H1 & _ & H2).
  - split; [discriminate | reflexivity].
  - split; [discriminate | reflexivity].
  - split; [reflexivity | apply sampleFs_flat].
  - reflexivity.
  - exists w1. split; [exact H1 | exact H2].
Defined.

Lemma create_with_image_then_list_witness :
  db emptyWorld !! 6 = None
  ∧ ∃ u w',
      post_addUser sampleDir 1900 6 signUpWithPicture emptyWorld
      = (mkResponse 201 (JsonUser u), w')
      ∧ image u = JString "/uploads/1900-me_2024.png"
      ∧ ∃ us, get_users w' = (mkResponse 200 (JsonUsers us), w')
          ∧ mkUser 6 (username u) (email u) (password u)
              (JString "http://localhost:8080/uploads/1900-me_2024.png") ∈ us
          ∧ db w' !! 6 = Some u.
Proof.
  split; [reflexivity |].
  apply (create_with_image_then_list sampleDir sampleDir_normal 1900 6
           signUpWithPicture emptyWorld
           (mkFilePart "me:2024.png" "image/png" "ERIN") eq_refl).
  - split; [discriminate | reflexivity].
  - split; [reflexivity | apply sampleFs_flat].
  - by repeat split.
  - reflexivity.
Defined.

Lemma create_with_image_then_image_witness :
  castObjectId (params_id erinId) = Some 6
  ∧ ∃ u w',
      post_addUser sampleDir 1900 6 signUpWithPicture emptyWorld
      = (mkResponse 201 (JsonUser u), w')
      ∧ get_userImage sampleDir (λ _, false) erinId w'
        = (mkResponse 200
             (SentFile ["srv"; "app"; "uploads"; "1900-me_2024.png"] "ERIN"),
           w').
Proof.
  split; [reflexivity |].
  apply (create_with_image_then_image sampleDir (λ _, false) sampleDir_normal
           1900 6 signUpWithPicture erinId emptyWorld
           (mkFilePart "me:2024.png" "image/png" "ERIN") eq_refl).
  - split; [discriminate | reflexivity].
  - split; [reflexivity | apply sampleFs_flat].
  - by repeat split.
  - reflexivity.
  - reflexivity.
  - reflexivity.
Defined.


Lemma malformed_id_is_500_witness :
  castObjectId (params_id malformedId) = None
  ∧ String.length (params_id malformedId) ≠ 12%nat
  ∧ get_user malformedId sampleWorld
    = (mkResponse 500 (JsonError (MessageOf (CastError "abc"))), sampleWorld)
  ∧ put_user sampleDir true 1800 malformedId sampleWorld
    = (mkResponse 500 (JsonError (MessageOf (CastError "abc"))), sampleWorld)
  ∧ delete_user malformedId sampleWorld
    = (mkResponse 500 (JsonError (MessageOf (CastError "abc"))), sampleWorld).
Proof.
  assert (Hlen : String.length (params_id malformedId) ≠ 12%nat)
    by discriminate.
  destruct (malformed_id_is_500 sampleDir true (λ _, false) 1800 malformedId
              sampleWorld eq_refl Hlen) as (Hget & Hdel & _ & Hput).
  split_and!; [reflexivity | exact Hlen | exact Hget
               | exact (proj1 (Hput None sampleWorld eq_refl)) | exact Hdel].
Defined.


Lemma update_writes_fields_unvalidated_witness :
  castObjectId (params_id emptyName) = Some 5
  ∧ db sampleWorld !! 5 = Some alice
  ∧ ∃ u', put_user sampleDir true 1800 emptyName sampleWorld
          = (mkResponse 200 (JsonUser u'),
             mkWorld (<[5 := u']> (db sampleWorld)) (fs sampleWorld))
      ∧ username u' = JString ""
      ∧ User.validate u' ≠ [].
Proof.
  split_and!; [reflexivity | reflexivity |].
  destruct (update_writes_fields_unvalidated sampleDir true 1800 emptyName
              sampleWorld sampleWorld None 5 alice eq_refl eq_refl eq_refl)
    as (u' & Hput & _ & Hname & _ & _ & Hinvalid).
  exists u'. split_and!; [exact Hput | by apply Hname | apply Hinvalid; by left].
Defined.

Lemma put_user_absent_fields_nulled_witness :
  castObjectId (params_id renameBob) = Some 5
  ∧ db sampleWorld !! 5 = Some alice
  ∧ ∃ u', put_user sampleDir false 1800 renameBob sampleWorld
          = (mkResponse 200 (JsonUser u'),
             mkWorld (<[5 := u']> (db sampleWorld)) (fs sampleWorld))
      ∧ email u' = JNull
      ∧ password u' = JNull
      ∧ image u' = JString "/uploads/1700-a_b.png".
Proof.
  split_and!; [reflexivity | reflexivity |].
  destruct (put_user_absent_fields_nulled sampleDir false 1800 renameBob
              sampleWorld sampleWorld None 5 alice eq_refl eq_refl eq_refl
              eq_refl) as (u' & Hput & _ & He & Hp & Himg).
  exists u'.
  split_and!; [exact Hput | by apply He | by apply Hp | by rewrite Himg].
Defined.

Lemma delete_twice_witness :
  delete_user renameBob sampleWorld
    = (mkResponse 200 (JsonMessage "User deleted successfully"),
       mkWorld ∅ sampleFs)
  ∧ delete_user renameBob (mkWorld ∅ sampleFs)
    = (mkResponse 404 (JsonError (Literal "User not found")),
       mkWorld ∅ sampleFs).
Proof.
  assert (Hdel : delete_user renameBob sampleWorld
                 = (mkResponse 200 (JsonMessage "User deleted successfully"),
                    mkWorld ∅ sampleFs)) by reflexivity.
  split; [exact Hdel |].
  exact (proj1 (delete_twice renameBob sampleWorld _ Hdel)).
Defined.

Lemma routes_only_add_uploads_witness :
  Forall properSeg sampleDir
  ∧ (fs (serve sampleDir true (λ _, false) (PutUser 1800 newPicture)
           sampleWorld).2 !! ["srv"; "app"; "uploads"; "1700-a_b.png"]
     = fs sampleWorld !! ["srv"; "app"; "uploads"; "1700-a_b.png"]
     ∨ ∃ name content,
         ["srv"; "app"; "uploads"; "1700-a_b.png"] = uploadDir sampleDir ++ [name]
         ∧ fs sampleWorld !! ["srv"; "app"; "uploads"; "1700-a_b.png"] ≠ Some Dir
         ∧ fs (serve sampleDir true (λ _, false) (PutUser 1800 newPicture)
                 sampleWorld).2 !! ["srv"; "app"; "uploads"; "1700-a_b.png"]
           = Some (File content)).
Proof.
  split; [exact sampleDir_normal |].
  exact (routes_only_add_uploads sampleDir true (λ _, false) sampleDir_normal
           (PutUser 1800 newPicture) sampleWorld
           ["srv"; "app"; "uploads"; "1700-a_b.png"]).
Defined.

Lemma emptyWorld_reaches_erinWorld :
  rtc (step sampleDir true (λ _, false)) emptyWorld erinWorld.
Proof.
  apply rtc_once. exists (PostAddUser 1900 6 signUpWithPicture). reflexivity.
Qed.

Lemma stored_records_fetch_by_own_id_witness :
  db emptyWorld = ∅
  ∧ db erinWorld !! 6 = Some erin
  ∧ _id erin = 6
  ∧ get_user erinId erinWorld = (mkResponse 200 (JsonUser erin), erinWorld).
Proof.
  destruct (stored_records_fetch_by_own_id sampleDir true (λ _, false)
              emptyWorld erinWorld eq_refl emptyWorld_reaches_erinWorld
              6 erin eq_refl) as [Hid Hget].
  split_and!; [reflexivity | reflexivity | exact Hid | exact (Hget erinId eq_refl)].
Defined.

Lemma stored_images_are_served_witness :
  db emptyWorld = ∅
  ∧ castObjectId (params_id erinId) = Some 6
  ∧ ∃ content,
      fs erinWorld !! imagePath sampleDir "/uploads/1900-me_2024.png"
      = Some (File content)
      ∧ get_userImage sampleDir (λ _, false) erinId erinWorld
        = (mkResponse 200
             (SentFile (imagePath sampleDir "/uploads/1900-me_2024.png") content),
           erinWorld).
Proof.
  split_and!; [reflexivity | reflexivity |].
  destruct (stored_images_are_served sampleDir true (λ _, false)
              sampleDir_normal emptyWorld erinWorld eq_refl
              emptyWorld_reaches_erinWorld erinId 6 erin
              "/uploads/1900-me_2024.png" eq_refl eq_refl eq_refl)
    as (content & Hfile & Hget).
  exists content. split; [exact Hfile | exact (Hget eq_refl)].
Defined.

Lemma uploadDir_stays_flat_witness :
  fs emptyWorld !! uploadDir sampleDir = Some Dir
  ∧ fs erinWorld !! uploadDir sampleDir = Some Dir
  ∧ fs erinWorld !! (uploadDir sampleDir ++ ["1900-me_2024.png"]) ≠ Some Dir.
Proof.
  destruct (uploadDir_stays_flat sampleDir true (λ _, false)
              sampleDir_normal emptyWorld erinWorld eq_refl sampleFs_flat
              emptyWorld_reaches_erinWorld) as (Hdir & Hflat).
  split_and!; [reflexivity | exact Hdir | exact (Hflat "1900-me_2024.png")].
Defined.

Lemma put_user_idempotent_witness :
  castObjectId (params_id renameBob) = Some 5
  ∧ db sampleWorld !! 5 = Some alice
  ∧ ∃ u' w', put_user sampleDir true 1800 renameBob sampleWorld
             = (mkResponse 200 (JsonUser u'), w')
      ∧ put_user sampleDir true 1801 renameBob w'
        = (mkResponse 200 (JsonUser u'), w').
Proof.
  split_and!; [reflexivity | reflexivity |].
  exact (put_user_idempotent sampleDir true 1800 1801 renameBob sampleWorld 5
           alice eq_refl eq_refl eq_refl).
Defined.

Lemma create_then_delete_witness :
  db emptyWorld !! 6 = None
  ∧ castObjectId (params_id erinId) = Some 6
  ∧ ∃ u w', post_addUser sampleDir 1900 6 signUp emptyWorld
            = (mkResponse 201 (JsonUser u), w')
      ∧ delete_user erinId w'
        = (mkResponse 200 (JsonMessage "User deleted successfully"),
           emptyWorld).
Proof.
  split_and!; [reflexivity | reflexivity |].
  apply (create_then_delete sampleDir 1900 6 signUp erinId emptyWorld
           emptyWorld None eq_refl); [by repeat split | reflexivity | reflexivity].
Defined.
